(** * STAR OAI-PMH harvester (star_oaipmh_harvest.py): model and properties

    A shallow embedding of the harvesting script.  Python [str] values are
    Rocq strings whose characters stand for the code points 0..255
    (Latin-1); on that range the character classes below are the ones
    Python uses for [str.strip], [str.lower] and for [\d], [\w] and [\b]
    in [re] patterns over [str].  A Python [dict] is a [gmap]; parsed XML
    is kept as the node lists the XPath queries of the script select. *)

From Stdlib Require Import ZArith Ascii String List Bool Lia.
From stdpp Require Import base option list list_numbers gmap strings pretty.

Local Open Scope Z_scope.

(* stdpp's solvers clear hypotheses that may already be gone. *)
#[local] Set Warnings "-clear-no-such-hyp".

(** ** Python string primitives *)

Module Py.

Definition ord (c : ascii) : N := N_of_ascii c.

Definition between (lo hi n : N) : bool := ((lo <=? n) && (n <=? hi))%N.

(** [str.isspace] on one character: TAB..CR, FS..US, SPACE, NEL, NBSP. *)
Definition isspace (c : ascii) : bool :=
  let n := ord c in
  between 9 13 n || between 28 32 n || (n =? 133)%N || (n =? 160)%N.

(** [\d] of [re] on [str]: the decimal digits. *)
Definition isdecimal (c : ascii) : bool := between 48 57 (ord c).

(** [\w] of [re] on [str]: [str.isalnum] or the underscore. *)
Definition isword (c : ascii) : bool :=
  let n := ord c in
  between 48 57 n || between 65 90 n || (n =? 95)%N || between 97 122 n
  || (n =? 170)%N || (n =? 178)%N || (n =? 179)%N || (n =? 181)%N
  || (n =? 185)%N || (n =? 186)%N || between 188 190 n
  || between 192 214 n || between 216 246 n || between 248 255 n.

(** [str.lower] on one character. *)
Definition lower_char (c : ascii) : ascii :=
  let n := ord c in
  if between 65 90 n || between 192 214 n || between 216 222 n
  then ascii_of_N (n + 32) else c.

Fixpoint lower (s : string) : string :=
  match s with
  | EmptyString => EmptyString
  | String c s' => String (lower_char c) (lower s')
  end.

Fixpoint lstrip (s : string) : string :=
  match s with
  | EmptyString => EmptyString
  | String c s' => if isspace c then lstrip s' else s
  end.

Fixpoint rstrip (s : string) : string :=
  match s with
  | EmptyString => EmptyString
  | String c s' =>
      match rstrip s' with
      | EmptyString => if isspace c then EmptyString else String c EmptyString
      | r => String c r
      end
  end.

(** [s.strip()] *)
Definition strip (s : string) : string := rstrip (lstrip s).

(** Truthiness of a [str]: [if s:] *)
Definition truthy (s : string) : bool := negb (s =? "")%string.

(** Truthiness of a value that is [None] or a [str]. *)
Definition truthy_opt (o : option string) : bool :=
  match o with
  | None => false
  | Some s => truthy s
  end.

(** [s.startswith(p)] *)
Definition startswith (p s : string) : bool := String.prefix p s.

(** [sub in s] *)
Fixpoint contains (sub s : string) : bool :=
  String.prefix sub s ||
  match s with
  | EmptyString => false
  | String _ s' => contains sub s'
  end.

(** [sep.join(l)] *)
Fixpoint join (sep : string) (l : list string) : string :=
  match l with
  | [] => ""
  | [x] => x
  | x :: rest => x +:+ sep +:+ join sep rest
  end.

(** [s.split(sep)[0]] for a non-empty separator: the part of [s] before
    the leftmost occurrence of [sep], or all of [s] when there is none. *)
Fixpoint split_head (sep s : string) : string :=
  if String.prefix sep s then ""
  else match s with
       | EmptyString => ""
       | String c s' => String c (split_head sep s')
       end.

(** [l[:n]] on a list, with Python's reading of a negative bound. *)
Definition slice_to {A} (l : list A) (n : Z) : list A :=
  if 0 <=? n then take (Z.to_nat n) l
  else take (length l - Z.to_nat (- n))%nat l.

(** [enumerate(l, start)] *)
Definition enumerate {A} (l : list A) (start : Z) : list (Z * A) :=
  zip (seqZ start (Z.of_nat (length l))) l.

(** [range(a, b)] *)
Definition range (a b : Z) : list Z := seqZ a (b - a).

(** The two-character string [\n\n]. *)
Definition blank_line : string :=
  String (ascii_of_N 10) (String (ascii_of_N 10) EmptyString).

End Py.

(** ** Parsed XML, as far as the script looks at it *)

(** An element the script reads through [n.text]: its local name, its
    [xml:lang] attribute and its text ([None] when lxml gives [None]). *)
Record Element := mkElement {
  el_tag : string;
  el_lang : option string;
  el_text : option string
}.

(** The children of one [oai_dc:dc] element, in document order. *)
Abbreviation DcRoot := (list Element).

(** One [oai:record]: the string values and node sets that the XPath
    queries [string(oai:header/@status)], [string(oai:header/oai:identifier)],
    [string(oai:header/oai:datestamp)], [oai:header/oai:setSpec] and
    [oai:metadata/oai_dc:dc] return on it. *)
Record RecordNode := mkRecord {
  rec_status : string;
  rec_identifier : string;
  rec_datestamp : string;
  rec_setSpec : list Element;
  rec_metadata : list DcRoot
}.

(** A response body that parses: the nodes selected by
    [//oai:ListRecords/oai:record] and [//oai:ListRecords/oai:resumptionToken]. *)
Record Document := mkDocument {
  doc_records : list RecordNode;
  doc_token_el : list Element
}.

(** [dc_root.xpath("dc:<name>")] *)
Definition xpath_dc (name : string) (dc_root : DcRoot) : list Element :=
  filter (λ e, el_tag e = name) dc_root.

(** [dc_root.xpath("dc:description[@xml:lang='<l>']")] *)
Definition xpath_description_lang (l : string) (dc_root : DcRoot) : list Element :=
  filter (λ e, el_lang e = Some l) (xpath_dc "description" dc_root).

(** [dc_root.xpath("dc:description[not(@xml:lang)]")] *)
Definition xpath_description_nolang (dc_root : DcRoot) : list Element :=
  filter (λ e, el_lang e = None) (xpath_dc "description" dc_root).

(** ** Helpers *)

(** [(n.text or "")] *)
Definition text_or_empty (n : Element) : string := default "" (el_text n).

Fixpoint texts (nodes : list Element) : list string :=
  match nodes with
  | [] => []
  | n :: rest =>
      let t := Py.strip (text_or_empty n) in
      if Py.truthy t then t :: texts rest else texts rest
  end.

Definition join_texts (nodes : list Element) (sep : string) : string :=
  Py.join sep (texts nodes).

(** The pattern [\b(18|19|20)\d{2}\b], piece by piece. *)

Definition isword_opt (c : option ascii) : bool :=
  match c with
  | None => false
  | Some c => Py.isword c
  end.

(** [\b] between the character before and the character after a position
    (none at either end of the string). *)
Definition word_boundary (before after : option ascii) : bool :=
  xorb (isword_opt before) (isword_opt after).

(** [(18|19|20)] *)
Definition century (a b : ascii) : bool :=
  ((a =? "1") && ((b =? "8") || (b =? "9")) || (a =? "2") && (b =? "0"))%char.

Definition first_char (s : string) : option ascii :=
  match s with
  | EmptyString => None
  | String c _ => Some c
  end.

(** A match of the pattern starting at the head of [s], where [prev] is the
    character just before it. *)
Definition year_match_here (prev : option ascii) (s : string) : option string :=
  match s with
  | String a (String b (String c (String d rest))) =>
      if word_boundary prev (Some a) && century a b
         && Py.isdecimal c && Py.isdecimal d
         && word_boundary (Some d) (first_char rest)
      then Some (String a (String b (String c (String d EmptyString))))
      else None
  | _ => None
  end.

(** [re.search]: the leftmost position with a match. *)
Fixpoint year_search (prev : option ascii) (s : string) : option string :=
  match year_match_here prev s with
  | Some m => Some m
  | None =>
      match s with
      | EmptyString => None
      | String c s' => year_search (Some c) s'
      end
  end.

Definition extract_year (date_str : string) : string :=
  if negb (Py.truthy date_str) then ""
  else match year_search None date_str with
       | Some m => m
       | None => ""
       end.

(** The request parameters, in insertion order. *)
Definition oai_params (metadata_prefix : string) (set_spec token : option string)
  : list (string * string) :=
  if Py.truthy_opt token then
    [("verb", "ListRecords"); ("resumptionToken", default "" token)]
  else
    let p := [("verb", "ListRecords"); ("metadataPrefix", metadata_prefix)] in
    if Py.truthy_opt set_spec then p ++ [("set", default "" set_spec)] else p.

Definition parse_page (doc : Document) : list RecordNode * string :=
  let records := doc_records doc in
  let token_el := doc_token_el doc in
  let token :=
    match token_el with
    | [] => ""
    | t0 :: _ => Py.strip (text_or_empty t0)
    end in
  (records, token).

Definition has_open_access (dc_root : DcRoot) : bool :=
  let rights_vals := texts (xpath_dc "rights" dc_root) in
  existsb (λ rv, (Py.lower (Py.strip rv) =? "open access")%string) rights_vals.

(** ** Record extraction *)

(** The three variables the loop over the setSpecs updates. *)
Record SetTags := mkSetTags {
  set_ddc : string;
  set_etab : string;
  is_diffusable : string
}.

Definition classify_step (acc : SetTags) (s : string) : SetTags :=
  if Py.startswith "ddc:" s then
    mkSetTags s (set_etab acc) (is_diffusable acc)
  else if (s =? "diffusable")%string then
    mkSetTags (set_ddc acc) (set_etab acc) "1"
  else if negb (Py.contains ":" s) && negb (s =? "diffusable")%string then
    if negb (Py.truthy (set_etab acc))
    then mkSetTags (set_ddc acc) s (is_diffusable acc)
    else acc
  else acc.

Definition classify_sets (sets : list string) : SetTags :=
  foldl classify_step (mkSetTags "" "" "0") sets.

Definition contributor_key (i : Z) : string := "contributor_" +:+ pretty i.

(** [for i in range(1, max_contributors + 1): row[f"contributor_{i}"] = ""] *)
Definition blank_contributors (max_contributors : Z) (row : gmap string string)
  : gmap string string :=
  foldl (λ r i, <[contributor_key i := ""]> r) row
        (Py.range 1 (max_contributors + 1)).

(** [for idx, val in enumerate(contributors[:max_contributors], start=1):
       row[f"contributor_{idx}"] = val] *)
Definition fill_contributors (max_contributors : Z) (contributors : list string)
    (row : gmap string string) : gmap string string :=
  foldl (λ r iv, <[contributor_key iv.1 := iv.2]> r) row
        (Py.enumerate (Py.slice_to contributors max_contributors) 1).

Definition first_date (date : string) : string :=
  if Py.truthy date then Py.strip (Py.split_head " | " date) else "".

Definition extract_record (rec : RecordNode) (max_contributors : Z)
  : gmap string string * bool :=
  let oai_id := Py.strip (rec_identifier rec) in
  let datestamp := Py.strip (rec_datestamp rec) in
  let sets := texts (rec_setSpec rec) in
  let setSpecs_raw := Py.join " | " sets in
  let tags := classify_sets sets in
  let md := rec_metadata rec in
  let row : gmap string string :=
    list_to_map [
      ("oai_id", oai_id);
      ("setSpecs_raw", setSpecs_raw);
      ("set_etab", set_etab tags);
      ("set_ddc", set_ddc tags);
      ("is_diffusable", is_diffusable tags);
      ("title", "");
      ("subject", "");
      ("description_fr", "");
      ("description_en", "");
      ("language", "");
      ("identifier", "");
      ("creator", "");
      ("date", "");
      ("year", "");
      ("rights", "")
    ] in
  let row := blank_contributors max_contributors row in
  match md with
  | [] => (row, false)
  | dc_root :: _ =>
      if negb (has_open_access dc_root) then (row, false)
      else
        let row := <["rights" := join_texts (xpath_dc "rights" dc_root) " | "]> row in
        let row := <["title" := join_texts (xpath_dc "title" dc_root) " | "]> row in
        let row := <["language" := join_texts (xpath_dc "language" dc_root) " | "]> row in
        let row := <["identifier" := join_texts (xpath_dc "identifier" dc_root) " | "]> row in
        let row := <["creator" := join_texts (xpath_dc "creator" dc_root) " | "]> row in
        let row := <["subject" := join_texts (xpath_dc "subject" dc_root) " | "]> row in
        let date := join_texts (xpath_dc "date" dc_root) " | " in
        let row := <["date" := date]> row in
        let row := <["year" := extract_year (first_date date)]> row in
        let desc_fr := xpath_description_lang "fr" dc_root in
        let desc_en := xpath_description_lang "en" dc_root in
        let desc_nolang := xpath_description_nolang dc_root in
        let description_fr := join_texts desc_fr Py.blank_line in
        let row := <["description_fr" := description_fr]> row in
        let row := <["description_en" := join_texts desc_en Py.blank_line]> row in
        let row :=
          if negb (Py.truthy description_fr) && negb (bool_decide (desc_nolang = []))
          then <["description_fr" := join_texts desc_nolang Py.blank_line]> row
          else row in
        let contributors := texts (xpath_dc "contributor" dc_root) in
        let row := fill_contributors max_contributors contributors row in
        (row, true)
  end.

(** ** Harvest *)

Record Config := mkConfig {
  cfg_set_spec : option string;
  cfg_metadata_prefix : string;
  cfg_max_pages : option Z;
  cfg_max_contributors : Z
}.

(** What the endpoint answers to one request: [requests.get] or
    [raise_for_status] raises, the body does not parse, or a page. *)
Inductive Response :=
  | RespFailure
  | RespMalformed
  | RespPage (doc : Document).

Inductive HarvestError :=
  | TransportError
  | ParseError
  | SinkError.

(** The variables of the loop, the lines written to the CSV file and the
    parameters of the requests sent so far. *)
Record Session := mkSession {
  seen : Z;
  kept : Z;
  token : option string;
  page : Z;
  out : list (list string);
  requests : list (list (string * string))
}.

Inductive Outcome :=
  | Done (s : Session)
  | Failed (e : HarvestError) (s : Session).

Definition session_of (o : Outcome) : Session :=
  match o with
  | Done s => s
  | Failed _ s => s
  end.

Definition fixed_fieldnames : list string :=
  [ "oai_id"; "setSpecs_raw"; "set_etab"; "set_ddc"; "is_diffusable";
    "title"; "subject"; "description_fr"; "description_en";
    "language"; "identifier"; "creator"; "date"; "year"; "rights" ].

Definition fieldnames (max_contributors : Z) : list string :=
  fixed_fieldnames ++ (contributor_key <$> Py.range 1 (max_contributors + 1)).

(** [csv.DictWriter.writerow] with the default [extrasaction="raise"]: a key
    outside the field names raises, a missing one is written as [""]. *)
Definition writerow (fields : list string) (row : gmap string string)
  : option (list string) :=
  if decide (dom row ⊆ list_to_set fields)
  then Some ((λ k, default "" (row !! k)) <$> fields)
  else None.

Definition is_deleted (rec : RecordNode) : bool :=
  (Py.strip (rec_status rec) =? "deleted")%string.

(** The body of [for rec in records]. *)
Definition process_record (cfg : Config) (st : Session) (rec : RecordNode) : Outcome :=
  if is_deleted rec then Done st
  else
    let '(row, ok) := extract_record rec (cfg_max_contributors cfg) in
    let st := mkSession (seen st + 1) (kept st) (token st) (page st) (out st) (requests st) in
    if ok then
      match writerow (fieldnames (cfg_max_contributors cfg)) row with
      | Some line =>
          Done (mkSession (seen st) (kept st + 1) (token st) (page st)
                          (out st ++ [line]) (requests st))
      | None => Failed SinkError st
      end
    else Done st.

Fixpoint process_records (cfg : Config) (st : Session) (records : list RecordNode)
  : Outcome :=
  match records with
  | [] => Done st
  | rec :: rest =>
      match process_record cfg st rec with
      | Done st' => process_records cfg st' rest
      | Failed e st' => Failed e st'
      end
  end.

Definition page_limit_reached (max_pages : option Z) (page : Z) : bool :=
  match max_pages with
  | Some m => m <=? page
  | None => false
  end.

(** The [while True] loop.  [server] lists what the endpoint answers to the
    successive requests; each turn sends one request and takes the next
    answer, and a request that finds the list empty fails like one the
    endpoint does not answer. *)
Fixpoint harvest_loop (cfg : Config) (st : Session) (server : list Response) : Outcome :=
  let params := oai_params (cfg_metadata_prefix cfg) (cfg_set_spec cfg) (token st) in
  let st := mkSession (seen st) (kept st) (token st) (page st) (out st)
                      (requests st ++ [params]) in
  match server with
  | [] => Failed TransportError st
  | RespFailure :: _ => Failed TransportError st
  | RespMalformed :: _ => Failed ParseError st
  | RespPage doc :: server' =>
      let '(records, tok) := parse_page doc in
      let st := mkSession (seen st) (kept st) (Some tok) (page st) (out st) (requests st) in
      match process_records cfg st records with
      | Failed e st' => Failed e st'
      | Done st =>
          let st := mkSession (seen st) (kept st) (token st) (page st + 1) (out st)
                              (requests st) in
          if page_limit_reached (cfg_max_pages cfg) (page st) then Done st
          else if negb (Py.truthy_opt (token st)) then Done st
          else harvest_loop cfg st server'
      end
  end.

Definition harvest (cfg : Config) (server : list Response) : Outcome :=
  let st := mkSession 0 0 None 0 [fieldnames (cfg_max_contributors cfg)] [] in
  harvest_loop cfg st server.

(** ** Predicates used in the statements *)

(** A rights value that reads "open access" once trimmed and lowercased. *)
Definition open_access_value (dc_root : DcRoot) : Prop :=
  ∃ e, e ∈ dc_root ∧ el_tag e = "rights" ∧
       Py.lower (Py.strip (text_or_empty e)) = "open access".

(** A record the harvest keeps: not marked deleted, with a metadata
    payload that has an "open access" rights value. *)
Definition open_access_record (rec : RecordNode) : Prop :=
  Py.strip (rec_status rec) ≠ "deleted" ∧
  ∃ dc_root rest, rec_metadata rec = dc_root :: rest ∧ open_access_value dc_root.

(** The test the loop applies to a record before it writes a row. *)
Definition accepted (max_contributors : Z) (rec : RecordNode) : bool :=
  negb (is_deleted rec) && (extract_record rec max_contributors).2.

(** The CSV line of a record: the cells of its row, in column order. *)
Definition csv_line (max_contributors : Z) (rec : RecordNode) : list string :=
  (λ k, default "" ((extract_record rec max_contributors).1 !! k))
    <$> fieldnames max_contributors.

(** The lines of the accepted records among [records], in their order. *)
Definition csv_lines (max_contributors : Z) (records : list RecordNode)
  : list (list string) :=
  csv_line max_contributors
    <$> filter (λ rec, accepted max_contributors rec = true) records.

(** The records of a page that are not marked deleted. *)
Definition live_records (records : list RecordNode) : list RecordNode :=
  filter (λ rec, is_deleted rec = false) records.

(** The parameters of a first request and of a request that resumes. *)
Definition first_request (cfg : Config) : list (string * string) :=
  [("verb", "ListRecords"); ("metadataPrefix", cfg_metadata_prefix cfg)]
  ++ match cfg_set_spec cfg with
     | Some s => if bool_decide (s = "") then [] else [("set", s)]
     | None => []
     end.

Definition resume_request (doc : Document) : list (string * string) :=
  [("verb", "ListRecords"); ("resumptionToken", (parse_page doc).2)].

(** The cursor a page returns is not empty. *)
Definition has_cursor (doc : Document) : Prop := (parse_page doc).2 ≠ "".

(** A page limit, if one is configured, lies above [n]. *)
Definition limit_above (max_pages : option Z) (n : Z) : Prop :=
  match max_pages with
  | Some m => n < m
  | None => True
  end.

(** A four-character token: 18, 19 or 20 and two decimal digits. *)
Definition year_token (y : string) : Prop :=
  ∃ a b c d, y = String a (String b (String c (String d EmptyString))) ∧
             century a b = true ∧ Py.isdecimal c = true ∧ Py.isdecimal d = true.

(** The last character of [pre], or [prev] when [pre] is empty. *)
Fixpoint last_char (prev : option ascii) (pre : string) : option ascii :=
  match pre with
  | EmptyString => prev
  | String c pre' => last_char (Some c) pre'
  end.

(** [y] stands in [s] between [pre] and [post] as a token of its own: it
    is a year token, and no word character touches it on either side. *)
Definition year_occurs (prev : option ascii) (s pre y post : string) : Prop :=
  s = pre +:+ y +:+ post ∧ year_token y ∧
  isword_opt (last_char prev pre) = false ∧
  isword_opt (first_char post) = false.

(** The trimmed, non-blank values of the description elements whose
    [xml:lang] attribute is [lang] ([None]: no such attribute). *)
Definition description_values (lang : option string) (dc_root : DcRoot) : list string :=
  texts (filter (λ e, el_lang e = lang ∧ el_tag e = "description") dc_root).

(** The columns filled from the metadata payload, apart from the
    contributor columns. *)
Definition content_fieldnames : list string :=
  [ "title"; "subject"; "description_fr"; "description_en";
    "language"; "identifier"; "creator"; "date"; "year"; "rights" ].

(** A string made of whitespace only (the empty string included). *)
Fixpoint whitespace_only (s : string) : bool :=
  match s with
  | EmptyString => true
  | String c s' => Py.isspace c && whitespace_only s'
  end.

(** The columns that hold the " | "-joined values of the element of the
    same name. *)
Definition joined_fieldnames : list string :=
  [ "title"; "subject"; "language"; "identifier"; "creator"; "date"; "rights" ].

(** The error a response that is no page raises. *)
Definition error_of (r : Response) : option HarvestError :=
  match r with
  | RespFailure => Some TransportError
  | RespMalformed => Some ParseError
  | RespPage _ => None
  end.

(** A page without its records marked deleted. *)
Definition drop_deleted (r : Response) : Response :=
  match r with
  | RespPage doc => RespPage (mkDocument (live_records (doc_records doc)) (doc_token_el doc))
  | _ => r
  end.

(** What holds of the counters and of the output at every point of a run:
    the output is the header and one line per kept record, each as long as
    the header, and no more records are kept than seen. *)
Definition session_consistent (max_contributors : Z) (st : Session) : Prop :=
  ∃ lines,
    out st = fieldnames max_contributors :: lines ∧
    Z.of_nat (length lines) = kept st ∧
    Forall (λ line, length line = length (fieldnames max_contributors)) lines ∧
    kept st ≤ seen st.

(** ** Sample inputs *)

Definition sample_cfg : Config := mkConfig (Some "diffusable") "oai_dc" None 3.

(** The same with a page limit of zero. *)
Definition zero_limit_cfg : Config := mkConfig None "oai_dc" (Some 0) 3.

Definition sample_session : Session :=
  mkSession 0 0 None 0 [fieldnames 3] [].

Definition elem (tag text : string) : Element := mkElement tag None (Some text).

(** One open-access thesis with two contributors. *)
Definition thesis_a_dc : DcRoot :=
  [elem "rights" "Open Access"; elem "title" "Thesis A";
   elem "contributor" "Ada"; elem "contributor" "Bob";
   elem "date" "2019-05-10"].

Definition thesis_a : RecordNode :=
  mkRecord "" "oai:theses.fr:A" "2020-01-01"
    [elem "setSpec" "diffusable"; elem "setSpec" "ddc:620"]
    [thesis_a_dc].

(** An open-access thesis with one untagged and one English description. *)
Definition thesis_b_dc : DcRoot :=
  [elem "rights" " open access "; elem "title" "Thesis B";
   mkElement "description" None (Some "Untagged abstract");
   mkElement "description" (Some "en") (Some "English abstract")].

Definition thesis_b : RecordNode :=
  mkRecord "" "oai:theses.fr:B" "2020-01-04" [elem "setSpec" "CNAM"] [thesis_b_dc].

(** A record whose header is marked deleted. *)
Definition deleted_record : RecordNode :=
  mkRecord "deleted" "oai:theses.fr:D" "2020-01-02" [elem "setSpec" "diffusable"] [].

(** An open-access thesis whose only date value has a bar in it. *)
Definition thesis_undated_dc : DcRoot :=
  [elem "rights" "Open Access"; elem "date" "s.d. | 2019"].

Definition thesis_undated : RecordNode :=
  mkRecord "" "oai:theses.fr:U" "2020-01-03" [] [thesis_undated_dc].

Definition page_one : Document :=
  mkDocument [thesis_a; deleted_record] [elem "resumptionToken" "cursor-1"].

Definition page_two : Document :=
  mkDocument [thesis_undated] [elem "resumptionToken" ""].

(** * Properties *)

(** ** Strings *)

Section py_strings.

Lemma truthy_true (s : string) : Py.truthy s = true ↔ s ≠ "".
Proof.
  unfold Py.truthy. rewrite negb_true_iff, String.eqb_neq. done.
Qed.

Lemma truthy_false (s : string) : Py.truthy s = false ↔ s = "".
Proof.
  unfold Py.truthy. rewrite negb_false_iff, String.eqb_eq. done.
Qed.

Lemma lstrip_head (s : string) :
  match Py.lstrip s with
  | EmptyString => True
  | String c _ => Py.isspace c = false
  end.
Proof.
  induction s as [|c s IH]; simpl; [done|].
  destruct (Py.isspace c) eqn:Hc; [exact IH | exact Hc].
Qed.

Lemma rstrip_cons_nonspace (c : ascii) (s : string) :
  Py.isspace c = false → ∃ r, Py.rstrip (String c s) = String c r.
Proof.
  intros Hc. simpl. destruct (Py.rstrip s) as [|d r].
  - rewrite Hc. by exists EmptyString.
  - by eexists.
Qed.

Lemma lstrip_fixed (c : ascii) (s : string) :
  Py.isspace c = false → Py.lstrip (String c s) = String c s.
Proof. intros Hc. simpl. by rewrite Hc. Qed.

Lemma rstrip_idem (s : string) : Py.rstrip (Py.rstrip s) = Py.rstrip s.
Proof.
  induction s as [|c s IH]; simpl; [done|].
  destruct (Py.rstrip s) as [|d r] eqn:Hr.
  - destruct (Py.isspace c) eqn:Hc; simpl; [done|]. by rewrite Hc.
  - simpl in *. by rewrite IH.
Qed.

Lemma strip_idem (s : string) : Py.strip (Py.strip s) = Py.strip s.
Proof.
  unfold Py.strip. pose proof (lstrip_head s) as Hh.
  destruct (Py.lstrip s) as [|c t]; [done|].
  destruct (rstrip_cons_nonspace c t Hh) as [r Hr].
  rewrite Hr, (lstrip_fixed c r Hh), <- Hr. apply rstrip_idem.
Qed.

Lemma join_nonempty (sep : string) (l : list string) :
  Forall (λ x, x ≠ "") l → Py.join sep l = "" → l = [].
Proof.
  intros Hl Hj. destruct l as [|x [|y l]]; [done|..].
  - simpl in Hj. by inversion_clear Hl.
  - inversion_clear Hl as [|?? Hx _]. simpl in Hj.
    destruct x; [done | discriminate Hj].
Qed.

End py_strings.

(** ** The helpers [texts] and [has_open_access] *)

Section helpers.

Lemma texts_nonblank (nodes : list Element) : Forall (λ x, x ≠ "") (texts nodes).
Proof.
  induction nodes as [|n nodes IH]; simpl; [constructor|].
  destruct (Py.truthy _) eqn:Ht; [|done].
  constructor; [by apply truthy_true | done].
Qed.

Lemma elem_of_texts (nodes : list Element) (v : string) :
  v ∈ texts nodes ↔
  ∃ n, n ∈ nodes ∧ v = Py.strip (text_or_empty n) ∧ v ≠ "".
Proof.
  induction nodes as [|n nodes IH]; simpl.
  - split; [by intros ?%elem_of_nil | by intros (? & ?%elem_of_nil & _)].
  - destruct (Py.truthy _) eqn:Ht.
    + rewrite elem_of_cons, IH. apply truthy_true in Ht. split.
      * intros [Hv | (m & Hm & Hv)].
        -- exists n. subst v. split; [left | done].
        -- exists m. split; [by right | done].
      * intros (m & Hm & Hv & Hne). apply elem_of_cons in Hm as [Hm | Hm].
        -- left. by subst m.
        -- right. by exists m.
    + rewrite IH. apply truthy_false in Ht. split.
      * intros (m & Hm & Hv). exists m. split; [by right | done].
      * intros (m & Hm & Hv & Hne). apply elem_of_cons in Hm as [Hm | Hm].
        -- subst m. congruence.
        -- by exists m.
Qed.

Lemma join_texts_empty (nodes : list Element) (sep : string) :
  join_texts nodes sep = "" ↔ texts nodes = [].
Proof.
  unfold join_texts. split.
  - apply join_nonempty, texts_nonblank.
  - by intros ->.
Qed.

Lemma has_open_access_spec (dc_root : DcRoot) :
  has_open_access dc_root = true ↔ open_access_value dc_root.
Proof.
  unfold has_open_access, open_access_value, xpath_dc.
  rewrite existsb_exists. split.
  - intros (rv & Hin & Heq). apply list_elem_of_In, elem_of_texts in Hin.
    destruct Hin as (e & [He Htag]%list_elem_of_filter & -> & _).
    apply String.eqb_eq in Heq. rewrite strip_idem in Heq. by exists e.
  - intros (e & He & Htag & Heq).
    exists (Py.strip (text_or_empty e)). split.
    + apply list_elem_of_In, elem_of_texts. exists e. split_and!; [|done|].
      * by apply list_elem_of_filter.
      * intros Hnil. by rewrite Hnil in Heq.
    + apply String.eqb_eq. by rewrite strip_idem.
Qed.

End helpers.

(** ** Rows *)

Section rows.

Implicit Types (row : gmap string string) (k : string) (i : Z).

Lemma contributor_key_inj i j : contributor_key i = contributor_key j → i = j.
Proof.
  unfold contributor_key. intros H%(inj (String.app _)). by apply (inj pretty).
Qed.

Lemma fixed_not_contributor k i : k ∈ fixed_fieldnames → k ≠ contributor_key i.
Proof.
  unfold fixed_fieldnames, contributor_key. intros Hin ->.
  repeat (apply elem_of_cons in Hin as [Hin | Hin]; [discriminate Hin|]).
  by apply elem_of_nil in Hin.
Qed.

Lemma lookup_foldl_blank (ks : list Z) row k :
  foldl (λ r i, <[contributor_key i := ""]> r) row ks !! k
  = if decide (k ∈ contributor_key <$> ks) then Some "" else row !! k.
Proof.
  revert row. induction ks as [|j ks IH]; intros row.
  - destruct (decide _) as [Hk|]; [by apply elem_of_nil in Hk | done].
  - simpl foldl. rewrite IH, fmap_cons.
    destruct (decide (k = contributor_key j)) as [-> | Hne].
    + rewrite lookup_insert_eq, (decide_True (P := _ ∈ _ :: _)) by left.
      by case_decide.
    + rewrite lookup_insert_ne by done.
      destruct (decide (k ∈ contributor_key <$> ks)) as [Hin | Hin].
      * by rewrite decide_True by by right.
      * rewrite decide_False; [done|]. by intros [?|?]%elem_of_cons.
Qed.

Lemma lookup_foldl_fill_other (kvs : list (Z * string)) row k :
  (∀ i, k ≠ contributor_key i) →
  foldl (λ r iv, <[contributor_key iv.1 := iv.2]> r) row kvs !! k = row !! k.
Proof.
  intros Hk. revert row. induction kvs as [|[j v] kvs IH]; intros row; simpl; [done|].
  rewrite IH. apply lookup_insert_ne. by apply not_eq_sym.
Qed.

Lemma lookup_foldl_fill_enumerate (l : list string) (s : Z) row i :
  foldl (λ r iv, <[contributor_key iv.1 := iv.2]> r) row (Py.enumerate l s)
    !! contributor_key i
  = if decide (s ≤ i < s + Z.of_nat (length l))
    then l !! Z.to_nat (i - s)
    else row !! contributor_key i.
Proof.
  unfold Py.enumerate. revert s row.
  induction l as [|x l IH]; intros s row.
  - simpl. case_decide; [lia | done].
  - rewrite seqZ_cons by (simpl; lia).
    replace (Z.pred (Z.of_nat (length (x :: l)))) with (Z.of_nat (length l))
      by (simpl; lia).
    simpl foldl. rewrite IH.
    destruct (decide (i = s)) as [-> | Hne].
    + rewrite lookup_insert_eq.
      rewrite decide_False by lia. rewrite decide_True by (simpl; lia).
      by replace (s - s) with 0 by lia.
    + rewrite lookup_insert_ne by (intros ?%contributor_key_inj; lia).
      case_decide as H1.
      * rewrite decide_True by (simpl length; lia).
        replace (Z.to_nat (i - s)) with (S (Z.to_nat (i - Z.succ s))) by lia.
        done.
      * by rewrite decide_False by (simpl length; lia).
Qed.

Lemma dom_foldl_blank (ks : list Z) row :
  dom (foldl (λ r i, <[contributor_key i := ""]> r) row ks)
  = dom row ∪ list_to_set (contributor_key <$> ks).
Proof.
  revert row. induction ks as [|j ks IH]; intros row; simpl.
  - set_solver.
  - rewrite IH, dom_insert_L. set_solver.
Qed.

Lemma dom_foldl_fill (kvs : list (Z * string)) row :
  dom (foldl (λ r iv, <[contributor_key iv.1 := iv.2]> r) row kvs)
  = dom row ∪ list_to_set (contributor_key <$> kvs.*1).
Proof.
  revert row. induction kvs as [|[j v] kvs IH]; intros row; simpl.
  - set_solver.
  - rewrite IH, dom_insert_L. set_solver.
Qed.

Lemma length_slice_to_nonneg {A} (l : list A) (n : Z) :
  0 ≤ n → Z.of_nat (length (Py.slice_to l n)) = Z.min n (Z.of_nat (length l)).
Proof.
  intros Hn. unfold Py.slice_to.
  rewrite (proj2 (Z.leb_le 0 n)) by done. rewrite length_take. lia.
Qed.

Lemma lookup_slice_to_nonneg {A} (l : list A) (n : Z) (j : nat) :
  0 ≤ n → Z.of_nat j < n → Py.slice_to l n !! j = l !! j.
Proof.
  intros Hn Hj. unfold Py.slice_to.
  rewrite (proj2 (Z.leb_le 0 n)) by done. apply lookup_take_lt. lia.
Qed.

Lemma enumerate_keys {A} (l : list A) (s : Z) :
  (Py.enumerate l s).*1 = seqZ s (Z.of_nat (length l)).
Proof.
  unfold Py.enumerate. apply fst_zip. rewrite length_seqZ. lia.
Qed.

Lemma dom_blank_contributors N row :
  dom (blank_contributors N row)
  = dom row ∪ list_to_set (contributor_key <$> Py.range 1 (N + 1)).
Proof. apply dom_foldl_blank. Qed.

Lemma dom_fill_contributors N (cs : list string) row :
  0 ≤ N →
  list_to_set (contributor_key <$> Py.range 1 (N + 1)) ⊆ dom row →
  dom (fill_contributors N cs row) = dom row.
Proof.
  intros HN Hsub. unfold fill_contributors.
  rewrite dom_foldl_fill, enumerate_keys.
  rewrite (comm_L (∪)). apply subseteq_union_1_L. etrans; [|exact Hsub].
  intros k. rewrite !elem_of_list_to_set, !list_elem_of_fmap.
  intros (i & -> & Hi). exists i. split; [done|].
  unfold Py.range. apply elem_of_seqZ in Hi. apply elem_of_seqZ.
  rewrite length_slice_to_nonneg in Hi by done. lia.
Qed.

End rows.

(** ** Record extraction *)

Section extraction.

Implicit Types (row : gmap string string) (k : string) (rec : RecordNode) (N : Z).

Lemma fixed_elem k : bool_decide (k ∈ fixed_fieldnames) = true → k ∈ fixed_fieldnames.
Proof. apply bool_decide_eq_true_1. Qed.

Lemma lookup_blank_contributors_fixed N row k :
  k ∈ fixed_fieldnames → blank_contributors N row !! k = row !! k.
Proof.
  intros Hk. unfold blank_contributors. rewrite lookup_foldl_blank.
  rewrite decide_False; [done|].
  intros (i & -> & _)%list_elem_of_fmap. by eapply fixed_not_contributor.
Qed.

Lemma lookup_blank_contributors_key N row i :
  1 ≤ i ≤ N → blank_contributors N row !! contributor_key i = Some "".
Proof.
  intros Hi. unfold blank_contributors. rewrite lookup_foldl_blank.
  rewrite decide_True; [done|].
  apply list_elem_of_fmap. exists i. split; [done|].
  unfold Py.range. apply elem_of_seqZ. lia.
Qed.

Lemma lookup_fill_contributors_fixed N cs row k :
  k ∈ fixed_fieldnames → fill_contributors N cs row !! k = row !! k.
Proof.
  intros Hk. apply lookup_foldl_fill_other. intros i. by apply fixed_not_contributor.
Qed.

Ltac row_lookup :=
  repeat first
    [ rewrite lookup_fill_contributors_fixed by (by apply fixed_elem)
    | rewrite lookup_blank_contributors_fixed by (by apply fixed_elem)
    | rewrite lookup_insert_eq
    | rewrite lookup_insert_ne by done
    | progress cbn [list_to_map foldr fst snd] ].

Ltac open_extract_record rec dc_root :=
  unfold extract_record;
  let rest := fresh "rest" in
  let Hoa := fresh "Hoa" in
  destruct (rec_metadata rec) as [|dc_root rest];
  [| destruct (has_open_access dc_root) eqn:Hoa ];
  cbn [fst snd negb].

Lemma extract_record_flag rec N :
  (extract_record rec N).2
  = match rec_metadata rec with
    | [] => false
    | dc_root :: _ => has_open_access dc_root
    end.
Proof. by open_extract_record rec dc_root. Qed.

Lemma extract_record_header rec N :
  let row := (extract_record rec N).1 in
  let tags := classify_sets (texts (rec_setSpec rec)) in
  row !! "oai_id" = Some (Py.strip (rec_identifier rec)) ∧
  row !! "setSpecs_raw" = Some (Py.join " | " (texts (rec_setSpec rec))) ∧
  row !! "set_etab" = Some (set_etab tags) ∧
  row !! "set_ddc" = Some (set_ddc tags) ∧
  row !! "is_diffusable" = Some (is_diffusable tags).
Proof.
  cbv zeta. open_extract_record rec dc_root; try case_match; split_and!; by row_lookup.
Qed.


Lemma extract_record_dom rec N :
  0 ≤ N → dom (extract_record rec N).1 = list_to_set (fieldnames N).
Proof.
  intros HN.
  assert (∀ row : gmap string string,
    dom row = list_to_set fixed_fieldnames →
    dom (blank_contributors N row) = list_to_set (fieldnames N)) as Hblank.
  { intros row Hrow. unfold fieldnames.
    by rewrite dom_blank_contributors, Hrow, list_to_set_app_L. }
  assert (∀ row k v, k ∈ fixed_fieldnames →
    dom row = list_to_set (fieldnames N) →
    dom (<[k := v]> row) = list_to_set (fieldnames N)) as Hins.
  { intros row k v Hk Hrow. rewrite dom_insert_L, Hrow.
    apply subseteq_union_1_L, singleton_subseteq_l, elem_of_list_to_set.
    unfold fieldnames. apply elem_of_app. by left. }
  assert (∀ row cs,
    dom row = list_to_set (fieldnames N) →
    dom (fill_contributors N cs row) = list_to_set (fieldnames N)) as Hfill.
  { intros row cs Hrow. rewrite dom_fill_contributors, Hrow; [done..|].
    rewrite Hrow. unfold fieldnames. rewrite list_to_set_app_L.
    apply union_subseteq_r. }
  open_extract_record rec dc_root; try case_match;
    repeat first
      [ apply Hfill
      | apply Hins; [by apply fixed_elem|]
      | apply Hblank ];
    by rewrite dom_list_to_map_L.
Qed.

(** The fields filled from the metadata payload. *)
Lemma extract_record_rejected_fixed rec N k :
  (extract_record rec N).2 = false →
  k ∈ content_fieldnames →
  (extract_record rec N).1 !! k = Some "".
Proof.
  unfold content_fieldnames. intros Hflag Hk. revert Hflag.
  open_extract_record rec dc_root; try done; intros _;
    repeat (apply elem_of_cons in Hk as [-> | Hk]; [by row_lookup|]);
    by apply elem_of_nil in Hk.
Qed.

Lemma extract_record_rejected_contributor rec N i :
  (extract_record rec N).2 = false →
  1 ≤ i ≤ N →
  (extract_record rec N).1 !! contributor_key i = Some "".
Proof.
  intros Hflag Hi. revert Hflag.
  open_extract_record rec dc_root; try done; intros _;
    by apply lookup_blank_contributors_key.
Qed.

Lemma extract_record_accepted_descriptions rec N dc_root rest :
  rec_metadata rec = dc_root :: rest →
  has_open_access dc_root = true →
  let row := (extract_record rec N).1 in
  let fr := join_texts (xpath_description_lang "fr" dc_root) Py.blank_line in
  row !! "description_fr"
  = Some (if negb (Py.truthy fr) && negb (bool_decide (xpath_description_nolang dc_root = []))
          then join_texts (xpath_description_nolang dc_root) Py.blank_line
          else fr) ∧
  row !! "description_en"
  = Some (join_texts (xpath_description_lang "en" dc_root) Py.blank_line).
Proof.
  intros Hmd Hoa. cbv zeta. unfold extract_record. rewrite Hmd, Hoa. cbn [fst negb].
  case_match; split; by row_lookup.
Qed.

Lemma extract_record_accepted_date rec N dc_root rest :
  rec_metadata rec = dc_root :: rest →
  has_open_access dc_root = true →
  let row := (extract_record rec N).1 in
  let date := join_texts (xpath_dc "date" dc_root) " | " in
  row !! "date" = Some date ∧
  row !! "year" = Some (extract_year (first_date date)).
Proof.
  intros Hmd Hoa. cbv zeta. unfold extract_record. rewrite Hmd, Hoa. cbn [fst negb].
  case_match; split; by row_lookup.
Qed.

Lemma extract_record_accepted_contributor rec N dc_root rest i :
  rec_metadata rec = dc_root :: rest →
  has_open_access dc_root = true →
  0 ≤ N →
  1 ≤ i ≤ N →
  (extract_record rec N).1 !! contributor_key i
  = Some (default "" (texts (xpath_dc "contributor" dc_root) !! Z.to_nat (i - 1))).
Proof.
  intros Hmd Hoa HN Hi. unfold extract_record. rewrite Hmd, Hoa. cbn [fst negb].
  assert (∀ (row : gmap string string) k v, k ∈ fixed_fieldnames →
    row !! contributor_key i = Some "" →
    <[k := v]> row !! contributor_key i = Some "") as Hins.
  { intros row k v Hk Hrow. rewrite lookup_insert_ne; [done|].
    by apply fixed_not_contributor. }
  match goal with
  | |- fill_contributors _ _ ?r !! _ = _ =>
      assert (r !! contributor_key i = Some "") as Hrow;
      [| revert Hrow; generalize r; intros row Hrow ]
  end.
  { destruct (_ && _);
      repeat (apply Hins; [by apply fixed_elem|]);
      by apply lookup_blank_contributors_key. }
  clear Hins. set (cs := texts (xpath_dc "contributor" dc_root)).
  unfold fill_contributors. rewrite lookup_foldl_fill_enumerate.
  rewrite length_slice_to_nonneg by done.
  case_decide as Hlt.
  - rewrite lookup_slice_to_nonneg by lia.
    destruct (cs !! Z.to_nat (i - 1)) as [v|] eqn:Hv; [done|].
    apply lookup_ge_None in Hv. lia.
  - rewrite Hrow. rewrite lookup_ge_None_2; [done | lia].
Qed.

Lemma extract_record_no_extra_contributor rec N i :
  0 ≤ N → ¬ (1 ≤ i ≤ N) → (extract_record rec N).1 !! contributor_key i = None.
Proof.
  intros HN Hi. apply not_elem_of_dom. rewrite extract_record_dom by done.
  unfold fieldnames. rewrite elem_of_list_to_set, elem_of_app.
  intros [Hfix | (j & Hj & Hin)%list_elem_of_fmap].
  - by eapply fixed_not_contributor.
  - apply contributor_key_inj in Hj as <-.
    unfold Py.range in Hin. apply elem_of_seqZ in Hin. lia.
Qed.

End extraction.

(** ** Classification of the setSpecs *)

Section classification.

Lemma prefix_spec (p s : string) :
  String.prefix p s = true ↔ ∃ r, s = p +:+ r.
Proof.
  revert s. induction p as [|a p IH]; intros s.
  - split; [by exists s | by destruct s].
  - destruct s as [|b s]; simpl; [split; [done | by intros [r Hr]]|].
    destruct (ascii_dec a b) as [-> | Hne].
    + rewrite IH. split; intros [r Hr]; exists r; [by rewrite Hr | by injection Hr].
    + split; [done | intros [r Hr]; by injection Hr].
Qed.

Lemma contains_spec (sub s : string) :
  Py.contains sub s = true ↔ ∃ a b, s = a +:+ sub +:+ b.
Proof.
  induction s as [|c s IH]; cbn [Py.contains]; rewrite orb_true_iff, prefix_spec.
  - split.
    + intros [[r Hr] | ?]; [|done]. by exists "", r.
    + intros (a & b & Hab). left. destruct a; [by exists b | done].
  - rewrite IH. split.
    + intros [[r Hr] | (a & b & ->)]; [by exists "", r|].
      by exists (String c a), b.
    + intros (a & b & Hab). destruct a as [|c' a]; [left; by exists b|].
      right. injection Hab as _ ->. by exists a, b.
Qed.

Lemma ddc_has_colon (s : string) :
  Py.startswith "ddc:" s = true → Py.contains ":" s = true.
Proof.
  intros [r ->]%prefix_spec. apply contains_spec. by exists "ddc", r.
Qed.

Lemma default_last_cons {A} (d x : A) (l : list A) :
  default d (last (x :: l)) = default x (last l).
Proof.
  destruct l as [|y l]; [done|]. rewrite last_cons_cons.
  destruct (last (y :: l)) eqn:Hl; [done|]. by apply last_None in Hl.
Qed.

(** The state of the three variables after the loop has run over [l],
    started from [acc]. *)
Lemma classify_foldl (l : list string) (acc : SetTags) :
  Forall (λ s, s ≠ "") l →
  let t := foldl classify_step acc l in
  set_ddc t
    = default (set_ddc acc) (last (filter (λ s, Py.startswith "ddc:" s = true) l)) ∧
  is_diffusable t
    = (if bool_decide ("diffusable" ∈ l) then "1" else is_diffusable acc) ∧
  set_etab t
    = (if Py.truthy (set_etab acc) then set_etab acc
       else default ""
              (head (filter (λ s, Py.contains ":" s = false ∧ s ≠ "diffusable") l))).
Proof.
  intros Hl. revert acc. induction Hl as [|s l Hs Hl IH]; intros acc; cbv zeta.
  - cbn [foldl]. split_and!.
    + done.
    + by rewrite bool_decide_eq_false_2 by apply not_elem_of_nil.
    + by destruct (Py.truthy _) eqn:Ht; [|apply truthy_false in Ht].
  - simpl foldl. specialize (IH (classify_step acc s)). cbv zeta in IH.
    destruct IH as (Hddc & Hdiff & Hetab). rewrite Hddc, Hdiff, Hetab. clear Hddc Hdiff Hetab.
    unfold classify_step.
    destruct (Py.startswith "ddc:" s) eqn:Hp.
    { (* a ddc tag *)
      pose proof (ddc_has_colon s Hp) as Hcolon.
      assert (s ≠ "diffusable") as Hnd.
      { intros ->. vm_compute in Hp. discriminate Hp. }
      cbn [set_ddc set_etab is_diffusable].
      rewrite filter_cons_True by done. rewrite default_last_cons.
      rewrite (filter_cons_False (λ s, _ ∧ _)) by (intros [? _]; congruence).
      split_and!; [done| |done].
      destruct (decide ("diffusable" ∈ l)) as [Hin | Hin].
      - rewrite (bool_decide_eq_true_2 (_ ∈ _ :: _)) by (by right).
        by case_bool_decide.
      - rewrite (bool_decide_eq_false_2 (_ ∈ _ :: _))
          by (by intros [?|?]%elem_of_cons).
        by case_bool_decide. }
    rewrite filter_cons_False by congruence.
    destruct (s =? "diffusable")%string eqn:Hd.
    { (* the diffusable tag *)
      apply String.eqb_eq in Hd as ->.
      cbn [set_ddc set_etab is_diffusable].
      rewrite (filter_cons_False (λ s, _ ∧ _)) by (by intros [_ ?]).
      rewrite (bool_decide_eq_true_2 (_ ∈ _ :: _)) by left.
      split_and!; [done| |done]. by case_bool_decide. }
    apply String.eqb_neq in Hd.
    assert (bool_decide ("diffusable" ∈ s :: l) = bool_decide ("diffusable" ∈ l)) as ->.
    { apply bool_decide_ext. rewrite elem_of_cons. naive_solver. }
    destruct (Py.contains ":" s) eqn:Hc; cbn [negb andb].
    { (* some other tag with a colon *)
      rewrite (filter_cons_False (λ s, _ ∧ _)) by (intros [? _]; congruence).
      done. }
    (* a candidate for the institution *)
    rewrite (filter_cons_True (λ s, _ ∧ _)) by done. cbn [head default].
    destruct (Py.truthy (set_etab acc)) eqn:Ht; cbn [negb set_ddc set_etab is_diffusable].
    + by rewrite Ht.
    + by rewrite (proj2 (truthy_true s) Hs).
Qed.

End classification.

(** ** The harvest loop *)

Section harvest_loop.

Implicit Types (cfg : Config) (st : Session) (rec : RecordNode).

Lemma is_deleted_spec rec :
  is_deleted rec = true ↔ Py.strip (rec_status rec) = "deleted".
Proof. unfold is_deleted. apply String.eqb_eq. Qed.

Lemma accepted_spec N rec : accepted N rec = true ↔ open_access_record rec.
Proof.
  unfold accepted, open_access_record.
  rewrite andb_true_iff, negb_true_iff, extract_record_flag.
  rewrite <- not_true_iff_false, is_deleted_spec.
  apply and_iff_compat_l.
  destruct (rec_metadata rec) as [|dc_root rest].
  - split; [done | by intros (? & ? & ? & _)].
  - rewrite has_open_access_spec. split.
    + intros Hoa. by exists dc_root, rest.
    + by intros (? & ? & [= <- <-] & Hoa).
Qed.

(** Whether a record is an open-access record can be decided: the test of
    the loop decides it. *)
#[global] Instance open_access_record_dec rec : Decision (open_access_record rec).
Proof.
  destruct (accepted 0 rec) eqn:Ha.
  - left. by apply (accepted_spec 0).
  - right. intros Hoa%(accepted_spec 0). congruence.
Defined.

Lemma writerow_extract_record N rec :
  0 ≤ N → writerow (fieldnames N) (extract_record rec N).1 = Some (csv_line N rec).
Proof.
  intros HN. unfold writerow. rewrite extract_record_dom by done.
  by rewrite decide_True.
Qed.

(** With a negative column count the slice [contributors[:-1]] keeps a
    value, the row gets a contributor key that is no field name, and the
    writer refuses it. *)
Example negative_column_count_refused :
  process_record (mkConfig None "oai_dc" None (-1)) sample_session thesis_a
  = Failed SinkError (mkSession 1 0 None 0 [fieldnames 3] []).
Proof. by vm_compute. Qed.

(** One turn of [for rec in records], when no row can be refused. *)
Lemma process_record_spec cfg st rec :
  0 ≤ cfg_max_contributors cfg →
  process_record cfg st rec
  = Done (mkSession
            (seen st + (if is_deleted rec then 0 else 1))
            (kept st + (if accepted (cfg_max_contributors cfg) rec then 1 else 0))
            (token st) (page st)
            (out st ++ csv_lines (cfg_max_contributors cfg) [rec])
            (requests st)).
Proof.
  intros HN. unfold process_record.
  assert (csv_lines (cfg_max_contributors cfg) [rec]
          = if accepted (cfg_max_contributors cfg) rec
            then [csv_line (cfg_max_contributors cfg) rec] else []) as ->.
  { unfold csv_lines. destruct (accepted _ rec) eqn:Ha.
    - by rewrite filter_cons_True.
    - by rewrite filter_cons_False by congruence. }
  unfold accepted.
  pose proof (writerow_extract_record (cfg_max_contributors cfg) rec HN) as Hw.
  destruct (is_deleted rec); cbn [negb andb].
  - rewrite !Z.add_0_r, app_nil_r. by destruct st.
  - destruct (extract_record rec (cfg_max_contributors cfg)) as [row ok].
    cbn [fst snd] in *. destruct ok; cbn [seen kept token page out requests].
    + by rewrite Hw.
    + by rewrite Z.add_0_r, app_nil_r.
Qed.

Lemma csv_lines_app N (l1 l2 : list RecordNode) :
  csv_lines N (l1 ++ l2) = csv_lines N l1 ++ csv_lines N l2.
Proof. unfold csv_lines. by rewrite filter_app, fmap_app. Qed.

Lemma csv_lines_cons N rec (l : list RecordNode) :
  csv_lines N (rec :: l) = csv_lines N [rec] ++ csv_lines N l.
Proof. apply (csv_lines_app N [rec] l). Qed.

Lemma length_csv_lines_cons N rec (l : list RecordNode) :
  Z.of_nat (length (csv_lines N (rec :: l)))
  = (if accepted N rec then 1 else 0) + Z.of_nat (length (csv_lines N l)).
Proof.
  unfold csv_lines. destruct (accepted N rec) eqn:Ha.
  - rewrite filter_cons_True by done. cbn [fmap list_fmap length]. lia.
  - rewrite filter_cons_False by congruence. lia.
Qed.

Lemma length_live_records_cons rec (l : list RecordNode) :
  Z.of_nat (length (live_records (rec :: l)))
  = (if is_deleted rec then 0 else 1) + Z.of_nat (length (live_records l)).
Proof.
  unfold live_records. destruct (is_deleted rec) eqn:Hd.
  - rewrite filter_cons_False by congruence. lia.
  - rewrite filter_cons_True by done. cbn [length]. lia.
Qed.

(** A whole page. *)
Lemma process_records_spec cfg st (records : list RecordNode) :
  0 ≤ cfg_max_contributors cfg →
  process_records cfg st records
  = Done (mkSession
            (seen st + Z.of_nat (length (live_records records)))
            (kept st + Z.of_nat (length (csv_lines (cfg_max_contributors cfg) records)))
            (token st) (page st)
            (out st ++ csv_lines (cfg_max_contributors cfg) records)
            (requests st)).
Proof.
  intros HN. revert st. induction records as [|rec records IH]; intros st.
  - cbn. rewrite !Z.add_0_r, app_nil_r. by destruct st.
  - cbn [process_records]. rewrite process_record_spec by done. rewrite IH.
    cbn [seen kept token page out requests].
    rewrite length_csv_lines_cons, length_live_records_cons.
    rewrite (csv_lines_cons _ rec records), !Z.add_assoc, app_assoc. done.
Qed.

(** Processing records never touches the cursor, the page counter or the
    requests, even when a row is refused. *)
Lemma process_records_frame cfg st (records : list RecordNode) :
  let st' := session_of (process_records cfg st records) in
  token st' = token st ∧ page st' = page st ∧ requests st' = requests st.
Proof.
  revert st. induction records as [|rec records IH]; intros st; [done|].
  cbn [process_records]. unfold process_record.
  destruct (is_deleted rec); [apply IH|].
  destruct (extract_record _ _) as [row [|]]; [destruct (writerow _ _) as [line|]|];
    try done;
    match goal with
    | |- context [process_records cfg ?s records] => exact (IH s)
    end.
Qed.

Lemma harvest_loop_page cfg st doc (server : list Response) :
  harvest_loop cfg st (RespPage doc :: server)
  = let params := oai_params (cfg_metadata_prefix cfg) (cfg_set_spec cfg) (token st) in
    let st1 := mkSession (seen st) (kept st) (Some (parse_page doc).2) (page st)
                         (out st) (requests st ++ [params]) in
    match process_records cfg st1 (doc_records doc) with
    | Failed e s => Failed e s
    | Done s =>
        let s' := mkSession (seen s) (kept s) (token s) (page s + 1) (out s)
                            (requests s) in
        if page_limit_reached (cfg_max_pages cfg) (page s') then Done s'
        else if negb (Py.truthy_opt (token s')) then Done s'
        else harvest_loop cfg s' server
    end.
Proof. reflexivity. Qed.

Lemma oai_params_resume (prefix : string) (set_spec : option string) (t : string) :
  Py.truthy t = true →
  oai_params prefix set_spec (Some t) = [("verb", "ListRecords"); ("resumptionToken", t)].
Proof. intros Ht. unfold oai_params. cbn [Py.truthy_opt]. by rewrite Ht. Qed.

Lemma oai_params_first cfg (tok : option string) :
  Py.truthy_opt tok = false →
  oai_params (cfg_metadata_prefix cfg) (cfg_set_spec cfg) tok = first_request cfg.
Proof.
  intros Ht. unfold oai_params, first_request. rewrite Ht.
  destruct (cfg_set_spec cfg) as [s|]; cbn [Py.truthy_opt default]; [|done].
  destruct (Py.truthy s) eqn:Hs.
  - apply truthy_true in Hs. by rewrite bool_decide_eq_false_2.
  - apply truthy_false in Hs. by rewrite bool_decide_eq_true_2.
Qed.

(** What a run has written and counted, in terms of the pages it parsed. *)
Lemma harvest_loop_rows cfg (server : list Response) st :
  0 ≤ cfg_max_contributors cfg →
  ∃ docs : list Document,
    let st' := session_of (harvest_loop cfg st server) in
    let records := concat (doc_records <$> docs) in
    take (length docs) server = RespPage <$> docs ∧
    page st' = page st + Z.of_nat (length docs) ∧
    out st' = out st ++ csv_lines (cfg_max_contributors cfg) records ∧
    seen st' = seen st + Z.of_nat (length (live_records records)) ∧
    kept st' = kept st + Z.of_nat (length (csv_lines (cfg_max_contributors cfg) records)).
Proof.
  intros HN. revert st.
  assert (∀ st' st : Session,
    page st' = page st → out st' = out st → seen st' = seen st → kept st' = kept st →
    page st' = page st + Z.of_nat 0 ∧
    out st' = out st ++ csv_lines (cfg_max_contributors cfg) [] ∧
    seen st' = seen st + Z.of_nat (length (live_records [])) ∧
    kept st' = kept st + Z.of_nat (length (csv_lines (cfg_max_contributors cfg) []))) as Hnone.
  { intros st' st -> -> -> ->. cbn. by rewrite !Z.add_0_r, app_nil_r. }
  induction server as [|resp server IH]; intros st.
  { exists []. cbv zeta. split; [done|]. by apply Hnone. }
  destruct resp as [| |doc].
  1,2: exists []; cbv zeta; split; [done|]; by apply Hnone.
  rewrite harvest_loop_page. cbv zeta. rewrite process_records_spec by done.
  cbn [seen kept token page out requests].
  set (rows := csv_lines (cfg_max_contributors cfg) (doc_records doc)).
  set (live := live_records (doc_records doc)).
  assert (∀ st' : Session,
    page st' = page st + 1 → out st' = out st ++ rows →
    seen st' = seen st + Z.of_nat (length live) →
    kept st' = kept st + Z.of_nat (length rows) →
    let records := concat (doc_records <$> [doc]) in
    take (length [doc]) (RespPage doc :: server) = RespPage <$> [doc] ∧
    page st' = page st + Z.of_nat (length [doc]) ∧
    out st' = out st ++ csv_lines (cfg_max_contributors cfg) records ∧
    seen st' = seen st + Z.of_nat (length (live_records records)) ∧
    kept st' = kept st + Z.of_nat (length (csv_lines (cfg_max_contributors cfg) records)))
    as Hone.
  { intros st' -> -> -> ->. cbn [fmap list_fmap concat]. rewrite app_nil_r.
    done. }
  destruct (page_limit_reached _ _); [exists [doc]; by apply Hone|].
  destruct (negb _); [exists [doc]; by apply Hone|].
  match goal with
  | |- context [harvest_loop cfg ?s server] => destruct (IH s) as (docs & Htake & Hp & Ho & Hs & Hk)
  end.
  cbv zeta in *. cbn [seen kept token page out requests] in *.
  exists (doc :: docs). rewrite Hp, Ho, Hs, Hk.
  cbn [fmap list_fmap concat length take]. rewrite Htake.
  unfold live_records in *. rewrite csv_lines_app, filter_app, !length_app.
  subst rows live. unfold live_records. rewrite <- !app_assoc.
  split_and!; [done | lia | done | lia | lia].
Qed.

(** The requests of a run: the one for the cursor it starts with, then one
    resuming request per page that returned a cursor and was followed. *)
Lemma harvest_loop_requests cfg (server : list Response) st :
  ∃ docs : list Document,
    let st' := session_of (harvest_loop cfg st server) in
    (RespPage <$> docs) `prefix_of` server ∧
    Forall has_cursor docs ∧
    requests st'
    = requests st
      ++ oai_params (cfg_metadata_prefix cfg) (cfg_set_spec cfg) (token st)
         :: (resume_request <$> docs).
Proof.
  revert st. induction server as [|resp server IH]; intros st.
  { exists []. cbv zeta. split_and!; [apply prefix_nil | done | done]. }
  destruct resp as [| |doc].
  1,2: exists []; cbv zeta; split_and!; [apply prefix_nil | done | done].
  rewrite harvest_loop_page. cbv zeta.
  match goal with
  | |- context [process_records cfg ?s (doc_records doc)] =>
      pose proof (process_records_frame cfg s (doc_records doc)) as (Ht & Hp & Hr)
  end.
  cbn [token page requests] in *.
  destruct (process_records _ _ _) as [s|e s]; cbn [session_of] in *.
  2: { exists []. split_and!; [apply prefix_nil | done | done]. }
  destruct (page_limit_reached _ _).
  { exists []. split_and!; [apply prefix_nil | done | done]. }
  cbn [token]. destruct (Py.truthy_opt (token s)) eqn:Htok; cbn [negb].
  2: { exists []. split_and!; [apply prefix_nil | done | done]. }
  match goal with
  | |- context [harvest_loop cfg ?s' server] => destruct (IH s') as (docs & Hpre & Hcur & Hreq)
  end.
  cbv zeta in Hreq. cbn [token requests] in Hreq.
  rewrite Ht in Htok, Hreq |- *. cbn [Py.truthy_opt] in Htok.
  exists (doc :: docs). split_and!.
  - cbn [fmap list_fmap]. by apply prefix_cons.
  - constructor; [|done]. unfold has_cursor. by apply truthy_true.
  - rewrite Hreq, Hr, oai_params_resume by done. by rewrite <- app_assoc.
Qed.

(** The loop stops on the first page without a cursor when the limit is
    further away. *)
Lemma harvest_loop_stops cfg (pre : list Document) (doc : Document)
    (post : list Response) st :
  0 ≤ cfg_max_contributors cfg →
  Forall has_cursor pre →
  (parse_page doc).2 = "" →
  limit_above (cfg_max_pages cfg) (page st + Z.of_nat (S (length pre))) →
  ∃ st', harvest_loop cfg st ((RespPage <$> pre ++ [doc]) ++ post) = Done st' ∧
         page st' = page st + Z.of_nat (S (length pre)) ∧
         length (requests st') = (length (requests st) + S (length pre))%nat.
Proof.
  intros HN Hpre Hdoc. revert st.
  assert (∀ n p, limit_above (cfg_max_pages cfg) n → p ≤ n →
            page_limit_reached (cfg_max_pages cfg) p = false) as Hlim.
  { unfold limit_above, page_limit_reached. intros n p Hn Hp.
    destruct (cfg_max_pages cfg) as [m|]; [|done]. apply Z.leb_gt. lia. }
  induction Hpre as [|d pre Hd Hpre IH]; intros st Hlimit.
  - cbn [app fmap list_fmap]. rewrite harvest_loop_page. cbv zeta.
    rewrite process_records_spec by done. cbn [seen kept token page out requests].
    rewrite (Hlim _ _ Hlimit) by (cbn [length]; lia).
    rewrite Hdoc. cbn [Py.truthy_opt Py.truthy String.eqb negb].
    eexists. split; [done|]. cbn [page requests]. rewrite length_app. cbn [length].
    split; lia.
  - cbn [app fmap list_fmap]. rewrite harvest_loop_page. cbv zeta.
    rewrite process_records_spec by done. cbn [seen kept token page out requests].
    rewrite (Hlim _ _ Hlimit) by (cbn [length]; lia).
    cbn [Py.truthy_opt]. rewrite (proj2 (truthy_true _) Hd). cbn [negb].
    match goal with
    | |- context [harvest_loop cfg ?s _] => destruct (IH s) as (st' & Hrun & Hpage & Hreq)
    end.
    { cbn [page length] in *. replace (page st + 1 + Z.of_nat (S (length pre)))
        with (page st + Z.of_nat (S (S (length pre)))) by lia. done. }
    exists st'. split; [done|]. cbn [page requests length] in *.
    rewrite length_app in Hreq. cbn [length] in Hreq. split; lia.
Qed.

End harvest_loop.

(** ** Year extraction *)

Section year.

Lemma century_word (a b : ascii) : century a b = true → Py.isword a = true.
Proof.
  unfold century. rewrite orb_true_iff, !andb_true_iff.
  by intros [[->%Ascii.eqb_eq _] | [->%Ascii.eqb_eq _]].
Qed.

Lemma decimal_word (d : ascii) : Py.isdecimal d = true → Py.isword d = true.
Proof. unfold Py.isdecimal, Py.isword. by intros ->. Qed.

Lemma year_match_here_spec (prev : option ascii) (s y : string) :
  year_match_here prev s = Some y ↔
  ∃ post, s = y +:+ post ∧ year_token y ∧
          isword_opt prev = false ∧ isword_opt (first_char post) = false.
Proof.
  split.
  - destruct s as [|a [|b [|c [|d rest]]]]; try done. cbn [year_match_here].
    destruct (_ && _) eqn:Hcond; [|done]. intros [= <-].
    repeat (apply andb_true_iff in Hcond as [Hcond ?]).
    pose proof (century_word a b) as Ha. pose proof (decimal_word d) as Hd.
    unfold word_boundary in *. cbn [isword_opt] in *.
    rewrite Ha in Hcond by done. rewrite Hd in * by done.
    exists rest. split_and!; [done | by exists a, b, c, d | | ].
    + by destruct (isword_opt prev).
    + by destruct (isword_opt (first_char rest)).
  - intros (post & -> & (a & b & c & d & -> & Hab & Hc & Hd) & Hprev & Hpost).
    cbv [String.append]. cbn [year_match_here]. unfold word_boundary. cbn [isword_opt].
    rewrite Hprev, Hpost, Hab, Hc, Hd, (century_word a b Hab), (decimal_word d Hd).
    done.
Qed.

Lemma year_search_sound (prev : option ascii) (s y : string) :
  year_search prev s = Some y → ∃ pre post, year_occurs prev s pre y post.
Proof.
  revert prev. induction s as [|c s IH]; intros prev; [done|].
  cbn [year_search]. destruct (year_match_here prev (String c s)) as [m|] eqn:Hm.
  - intros [= ->]. apply year_match_here_spec in Hm as (post & Hs & Hy & Hp & Hq).
    by exists "", post.
  - intros (pre & post & -> & Hy & Hp & Hq)%IH.
    by exists (String c pre), post.
Qed.

Lemma year_search_complete (prev : option ascii) (s : string) :
  year_search prev s = None → ∀ pre y post, ¬ year_occurs prev s pre y post.
Proof.
  revert prev. induction s as [|c s IH]; intros prev.
  - intros _ pre y post (Hs & (a & b & c & d & -> & _) & _). by destruct pre.
  - cbn [year_search]. destruct (year_match_here prev (String c s)) as [m|] eqn:Hm; [done|].
    intros Hrest pre y post (Hs & Hy & Hp & Hq).
    destruct pre as [|c' pre].
    + assert (year_match_here prev (String c s) = Some y) as Hy'; [|congruence].
      apply year_match_here_spec. by exists post.
    + injection Hs as -> ->. by apply (IH _ Hrest pre y post).
Qed.

Lemma year_match_empty (prev : option ascii) (s : string) :
  year_search prev s ≠ Some "".
Proof.
  intros (pre & post & _ & (a & b & c & d & Hy & _) & _)%year_search_sound. done.
Qed.

(** [re.search] returns the leftmost token. *)
Lemma year_search_leftmost (prev : option ascii) (s y : string) :
  year_search prev s = Some y →
  ∃ pre post,
    year_occurs prev s pre y post ∧
    ∀ pre' y' post', year_occurs prev s pre' y' post' →
                     (String.length pre ≤ String.length pre')%nat.
Proof.
  revert prev. induction s as [|c s IH]; intros prev; [done|].
  cbn [year_search]. destruct (year_match_here prev (String c s)) as [m|] eqn:Hm.
  - intros [= ->]. apply year_match_here_spec in Hm as (post & Hs & Hy & Hp & Hq).
    exists "", post. split; [done|]. intros pre' y' post' _. cbn. lia.
  - intros (pre & post & (-> & Hy & Hp & Hq) & Hleft)%IH.
    exists (String c pre), post. split; [done|].
    intros pre' y' post' (Hs' & Hy' & Hp' & Hq').
    destruct pre' as [|c' pre'].
    + assert (year_match_here prev (String c (pre +:+ y +:+ post)) = Some y') as Hy'';
        [|congruence].
      apply year_match_here_spec. by exists post'.
    + injection Hs' as -> Hs'. cbn [String.length].
      apply le_n_S, (Hleft pre' y' post'). done.
Qed.

(** The token returned is the leftmost one of the string, and an empty
    result means there is none. *)
Lemma extract_year_sound (s y : string) :
  extract_year s = y → y ≠ "" →
  ∃ pre post,
    year_occurs None s pre y post ∧
    ∀ pre' y' post', year_occurs None s pre' y' post' →
                     (String.length pre ≤ String.length pre')%nat.
Proof.
  unfold extract_year. destruct (negb _); [congruence|].
  destruct (year_search None s) as [m|] eqn:Hm; [|congruence].
  intros -> _. by apply year_search_leftmost.
Qed.

Lemma extract_year_empty (s : string) :
  extract_year s = "" ↔ ∀ pre y post, ¬ year_occurs None s pre y post.
Proof.
  split.
  - unfold extract_year. destruct (Py.truthy s) eqn:Hs; cbn [negb].
    + destruct (year_search None s) as [m|] eqn:Hm.
      * intros ->. by apply year_match_empty in Hm.
      * intros _. by apply year_search_complete.
    + apply truthy_false in Hs as ->. intros _. by apply year_search_complete.
  - intros Hnone. destruct (extract_year s) as [|c y] eqn:Hy; [done|].
    destruct (extract_year_sound s (String c y) Hy) as (pre & post & Hocc & _); [done|].
    by destruct (Hnone pre (String c y) post).
Qed.

Lemma extract_year_examples :
  extract_year "2019-05-10" = "2019" ∧
  extract_year "circa 1998?" = "1998" ∧
  extract_year "" = "" ∧
  extract_year "n.d." = "" ∧
  extract_year "12019" = "" ∧
  extract_year "2150" = "".
Proof. by vm_compute. Qed.

End year.

(** ** The first date of a record *)

Section first_date.

Lemma append_cons (c : ascii) (s t : string) : String c s +:+ t = String c (s +:+ t).
Proof. reflexivity. Qed.

Lemma append_nil (t : string) : "" +:+ t = t.
Proof. reflexivity. Qed.

(** No " | " starts inside a value without a bar, whether the value ends
    the string or a separator follows it. *)
Lemma no_bar_no_separator (v tail : string) :
  v ≠ "" →
  Py.contains "|" v = false →
  tail = "" ∨ (∃ r, tail = " | " +:+ r) →
  String.prefix " | " (v +:+ tail) = false.
Proof.
  intros Hne Hv Htail. destruct (String.prefix _ _) eqn:Hp; [exfalso|done].
  apply prefix_spec in Hp as [r' Hr'].
  destruct v as [|c v]; [done|]. rewrite !append_cons, append_nil in Hr'.
  injection Hr' as -> Hr'.
  cbn [Py.contains] in Hv. apply orb_false_iff in Hv as [_ Hv].
  destruct v as [|d v].
  - rewrite append_nil in Hr'.
    destruct Htail as [-> | [r ->]]; [done|].
    rewrite !append_cons in Hr'. by injection Hr'.
  - rewrite append_cons in Hr'. injection Hr' as -> _.
    cbn [Py.contains String.prefix] in Hv.
    destruct (ascii_dec "|" "|"); [|done]. by destruct v.
Qed.

Lemma split_head_no_bar (v tail : string) :
  Py.contains "|" v = false →
  tail = "" ∨ (∃ r, tail = " | " +:+ r) →
  Py.split_head " | " (v +:+ tail) = v.
Proof.
  intros Hv Htail. induction v as [|c v IH].
  - rewrite append_nil. destruct Htail as [-> | [r ->]]; [done|].
    rewrite !append_cons, append_nil. cbn [Py.split_head String.prefix].
    repeat (destruct (ascii_dec _ _); [|done]). by destruct r.
  - rewrite append_cons. cbn [Py.split_head].
    assert (String.prefix " | " (String c (v +:+ tail)) = false) as ->.
    { rewrite <- append_cons. by apply no_bar_no_separator. }
    f_equal. apply IH. cbn [Py.contains] in Hv. by apply orb_false_iff in Hv as [_ Hv].
Qed.

Lemma join_cons (sep v : string) (rest : list string) :
  ∃ tail, Py.join sep (v :: rest) = v +:+ tail ∧
          (tail = "" ∨ ∃ r, tail = sep +:+ r).
Proof.
  destruct rest as [|w rest].
  - exists "". split; [|by left]. cbn [Py.join].
    induction v as [|c v IH]; [done|]. by rewrite append_cons, <- IH.
  - exists (sep +:+ Py.join sep (w :: rest)). split; [done|]. right. by eexists.
Qed.

(** Where the first date value has no bar, the year of an accepted row is
    the scan of that value; with no date value at all it is empty. *)
Lemma year_from_first_date_value (rec : RecordNode) (N : Z) (dc_root : DcRoot)
    (rest : list DcRoot) (v : string) (vs : list string) :
  rec_metadata rec = dc_root :: rest →
  has_open_access dc_root = true →
  texts (xpath_dc "date" dc_root) = v :: vs →
  Py.contains "|" v = false →
  (extract_record rec N).1 !! "year" = Some (extract_year v).
Proof.
  intros Hmd Hoa Hdates Hbar.
  destruct (extract_record_accepted_date rec N dc_root rest Hmd Hoa) as [_ ->].
  unfold join_texts. rewrite Hdates.
  destruct (join_cons " | " v vs) as (tail & -> & Htail).
  assert (v ∈ texts (xpath_dc "date" dc_root)) as Hv by (rewrite Hdates; left).
  apply elem_of_texts in Hv as (n & _ & Hstrip & Hne).
  unfold first_date. rewrite (proj2 (truthy_true (v +:+ tail))).
  - rewrite split_head_no_bar by done. by rewrite Hstrip, strip_idem.
  - by destruct v.
Qed.

Lemma year_without_date (rec : RecordNode) (N : Z) (dc_root : DcRoot)
    (rest : list DcRoot) :
  rec_metadata rec = dc_root :: rest →
  has_open_access dc_root = true →
  texts (xpath_dc "date" dc_root) = [] →
  (extract_record rec N).1 !! "year" = Some "".
Proof.
  intros Hmd Hoa Hdates.
  destruct (extract_record_accepted_date rec N dc_root rest Hmd Hoa) as [_ ->].
  unfold join_texts. by rewrite Hdates.
Qed.

End first_date.

(** * The claims *)

Section claims.

Implicit Types (cfg : Config) (st : Session) (rec : RecordNode) (N : Z).

(** C1. In every run the output is the header followed by one row for
    each record of the parsed pages that is not marked deleted and whose
    metadata payload is present and has a rights value that reads
    "open access" once trimmed and lowercased, and by nothing else: the
    other records produce no row at all.  Turn by turn, a record of that
    kind adds its row to the output and any other record leaves the
    output as it was. *)
Theorem row_written_iff_open_access cfg :
  0 ≤ cfg_max_contributors cfg →
  (∀ server : list Response, ∃ docs : list Document,
     take (length docs) server = RespPage <$> docs ∧
     page (session_of (harvest cfg server)) = Z.of_nat (length docs) ∧
     out (session_of (harvest cfg server))
     = fieldnames (cfg_max_contributors cfg)
       :: (csv_line (cfg_max_contributors cfg)
             <$> filter open_access_record (concat (doc_records <$> docs)))) ∧
  (∀ st rec, ∃ st',
     process_record cfg st rec = Done st' ∧
     ((open_access_record rec ∧
       out st' = out st ++ [csv_line (cfg_max_contributors cfg) rec]) ∨
      (¬ open_access_record rec ∧ out st' = out st))).
Proof.
  intros HN. split.
  - intros server. unfold harvest.
    match goal with
    | |- context [harvest_loop cfg ?s server] =>
        destruct (harvest_loop_rows cfg server s HN) as (docs & Ht & Hp & Ho & _)
    end.
    exists docs. cbv zeta in *. cbn [page out] in *. rewrite Hp, Ho.
    split_and!; [done | lia |]. cbn [app]. f_equal. unfold csv_lines. f_equal.
    apply list_filter_iff. intros rec. apply accepted_spec.
  - intros st rec. rewrite process_record_spec by done.
    eexists. split; [done|]. cbn [out]. unfold csv_lines.
    destruct (accepted (cfg_max_contributors cfg) rec) eqn:Ha.
    + left. rewrite filter_cons_True by done. split; [|done].
      by apply (accepted_spec (cfg_max_contributors cfg)).
    + right. rewrite filter_cons_False by congruence. split; [|by rewrite app_nil_r].
      intros Hoa%(accepted_spec (cfg_max_contributors cfg)). congruence.
Qed.

Lemma row_written_iff_open_access_witness :
  0 ≤ cfg_max_contributors sample_cfg ∧
  (∃ docs : list Document,
     take (length docs) [RespPage page_one; RespPage page_two] = RespPage <$> docs ∧
     page (session_of (harvest sample_cfg [RespPage page_one; RespPage page_two]))
     = Z.of_nat (length docs) ∧
     out (session_of (harvest sample_cfg [RespPage page_one; RespPage page_two]))
     = fieldnames (cfg_max_contributors sample_cfg)
       :: (csv_line (cfg_max_contributors sample_cfg)
             <$> filter open_access_record (concat (doc_records <$> docs)))) ∧
  (∃ st', process_record sample_cfg sample_session thesis_a = Done st' ∧
     ((open_access_record thesis_a ∧
       out st' = out sample_session
                 ++ [csv_line (cfg_max_contributors sample_cfg) thesis_a]) ∨
      (¬ open_access_record thesis_a ∧ out st' = out sample_session))).
Proof.
  assert (0 ≤ cfg_max_contributors sample_cfg) as HN by (cbn; lia).
  destruct (row_written_iff_open_access sample_cfg HN) as [Hrun Hturn].
  split; [exact HN|]. split.
  - exact (Hrun [RespPage page_one; RespPage page_two]).
  - exact (Hturn sample_session thesis_a).
Defined.

(** C2, as the code has it.  A record marked deleted is skipped before it
    is counted: no row, and [seen] stays.  A record that is not marked
    deleted and has no metadata payload gives no row and adds one to
    [seen].  At the end of a run [seen] is the number of records of the
    parsed pages that are not marked deleted. *)
Theorem skipped_record_seen cfg :
  (∀ st rec,
     is_deleted rec = true ∨ rec_metadata rec = [] →
     process_record cfg st rec
     = Done (mkSession (seen st + (if is_deleted rec then 0 else 1)) (kept st)
                       (token st) (page st) (out st) (requests st))) ∧
  (0 ≤ cfg_max_contributors cfg →
   ∀ server, ∃ docs : list Document,
     take (length docs) server = RespPage <$> docs ∧
     page (session_of (harvest cfg server)) = Z.of_nat (length docs) ∧
     seen (session_of (harvest cfg server))
     = Z.of_nat (length (live_records (concat (doc_records <$> docs))))).
Proof.
  split.
  - intros st rec Hskip. unfold process_record.
    destruct (is_deleted rec) eqn:Hdel.
    + rewrite Z.add_0_r. by destruct st.
    + destruct Hskip as [? | Hmd]; [done|].
      unfold extract_record. by rewrite Hmd.
  - intros HN server. unfold harvest.
    match goal with
    | |- context [harvest_loop cfg ?s server] =>
        destruct (harvest_loop_rows cfg server s HN) as (docs & Ht & Hp & _ & Hs & _)
    end.
    exists docs. cbv zeta in *. cbn [seen page] in *. rewrite Hp, Hs.
    split_and!; [done | lia | lia].
Qed.

Lemma skipped_record_seen_witness :
  (is_deleted deleted_record = true ∨ rec_metadata deleted_record = []) ∧
  process_record sample_cfg sample_session deleted_record = Done sample_session ∧
  0 ≤ cfg_max_contributors sample_cfg ∧
  ∃ docs : list Document,
    take (length docs) [RespPage page_one; RespPage page_two] = RespPage <$> docs ∧
    page (session_of (harvest sample_cfg [RespPage page_one; RespPage page_two]))
    = Z.of_nat (length docs) ∧
    seen (session_of (harvest sample_cfg [RespPage page_one; RespPage page_two]))
    = Z.of_nat (length (live_records (concat (doc_records <$> docs)))).
Proof.
  destruct (skipped_record_seen sample_cfg) as [Hrec Hrun].
  split; [by left|]. split.
  - apply (Hrec sample_session deleted_record). by left.
  - split; [cbn; lia|]. apply Hrun. cbn. lia.
Defined.

(** C2, as stated, fails: the deleted record of the sample is skipped
    without being counted. *)
Lemma deleted_record_not_seen :
  is_deleted deleted_record = true ∧
  process_record sample_cfg sample_session deleted_record = Done sample_session ∧
  ¬ (∀ cfg st rec,
       is_deleted rec = true ∨ rec_metadata rec = [] →
       ∃ st', process_record cfg st rec = Done st' ∧
              out st' = out st ∧ seen st' = seen st + 1).
Proof.
  split; [done|]. split; [done|].
  intros Hclaim.
  destruct (Hclaim sample_cfg sample_session deleted_record) as (st' & Hrun & _ & Hseen).
  { by left. }
  assert (st' = sample_session) as -> by (by injection Hrun).
  cbn in Hseen. lia.
Qed.

(** The diffusable flag of a row is one of the two digits. *)
Lemma set_tags_flag rec N :
  (extract_record rec N).1 !! "is_diffusable" = Some "0" ∨
  (extract_record rec N).1 !! "is_diffusable" = Some "1".
Proof.
  destruct (extract_record_header rec N) as (_ & _ & _ & _ & ->).
  destruct (classify_foldl (texts (rec_setSpec rec)) (mkSetTags "" "" "0")
              (texts_nonblank _)) as (_ & Hdiff & _).
  unfold classify_sets. rewrite Hdiff. case_bool_decide; [by right | by left].
Qed.

(** C3. The classification tag is the last setSpec that starts with
    "ddc:" (empty if none), the diffusable flag is "1" exactly when some
    setSpec equals "diffusable", and the institution tag is the first
    setSpec with no colon that is not "diffusable" (empty if none). *)
Theorem set_tags_classification rec N :
  let sets := texts (rec_setSpec rec) in
  let row := (extract_record rec N).1 in
  row !! "set_ddc"
    = Some (default "" (last (filter (λ s, Py.startswith "ddc:" s = true) sets))) ∧
  row !! "is_diffusable"
    = Some (if bool_decide ("diffusable" ∈ sets) then "1" else "0") ∧
  row !! "set_etab"
    = Some (default ""
              (head (filter (λ s, Py.contains ":" s = false ∧ s ≠ "diffusable") sets))).
Proof.
  cbv zeta.
  destruct (extract_record_header rec N) as (_ & _ & -> & -> & ->).
  destruct (classify_foldl (texts (rec_setSpec rec)) (mkSetTags "" "" "0")
              (texts_nonblank _)) as (Hddc & Hdiff & Hetab).
  unfold classify_sets. by rewrite Hddc, Hdiff, Hetab.
Qed.

(** C4. When the first page with an empty cursor is the N-th one and the
    page limit, if any, is above N, the run ends normally after exactly N
    requests. *)
Theorem harvest_fetches_until_empty_cursor cfg (pre : list Document) (doc : Document)
    (post : list Response) :
  0 ≤ cfg_max_contributors cfg →
  Forall has_cursor pre →
  (parse_page doc).2 = "" →
  limit_above (cfg_max_pages cfg) (Z.of_nat (S (length pre))) →
  ∃ st', harvest cfg ((RespPage <$> pre ++ [doc]) ++ post) = Done st' ∧
         length (requests st') = S (length pre) ∧
         page st' = Z.of_nat (S (length pre)).
Proof.
  intros HN Hpre Hdoc Hlimit. unfold harvest.
  match goal with
  | |- context [harvest_loop cfg ?s _] =>
      destruct (harvest_loop_stops cfg pre doc post s HN Hpre Hdoc) as (st' & Hrun & Hp & Hr)
  end.
  { by rewrite Z.add_0_l. }
  exists st'. cbn [page requests length] in *. split_and!; [done | lia | lia].
Qed.

Lemma harvest_fetches_until_empty_cursor_witness :
  0 ≤ cfg_max_contributors sample_cfg ∧
  Forall has_cursor [page_one] ∧
  (parse_page page_two).2 = "" ∧
  limit_above (cfg_max_pages sample_cfg) (Z.of_nat (S (length [page_one]))) ∧
  ∃ st', harvest sample_cfg ((RespPage <$> [page_one] ++ [page_two]) ++ [RespFailure])
         = Done st' ∧
         length (requests st') = S (length [page_one]) ∧
         page st' = Z.of_nat (S (length [page_one])).
Proof.
  assert (0 ≤ cfg_max_contributors sample_cfg) as HN by (cbn; lia).
  assert (Forall has_cursor [page_one]) as Hpre by (by repeat constructor).
  assert ((parse_page page_two).2 = "") as Hdoc by reflexivity.
  assert (limit_above (cfg_max_pages sample_cfg) (Z.of_nat (S (length [page_one]))))
    as Hlimit by exact I.
  split_and!; [done..|].
  exact (harvest_fetches_until_empty_cursor sample_cfg [page_one] page_two [RespFailure]
           HN Hpre Hdoc Hlimit).
Defined.

Lemma description_values_lang (l : string) (dc_root : DcRoot) :
  description_values (Some l) dc_root = texts (xpath_description_lang l dc_root).
Proof.
  unfold description_values, xpath_description_lang, xpath_dc.
  by rewrite list_filter_filter.
Qed.

Lemma description_values_nolang (dc_root : DcRoot) :
  description_values None dc_root = texts (xpath_description_nolang dc_root).
Proof.
  unfold description_values, xpath_description_nolang, xpath_dc.
  rewrite list_filter_filter. f_equal. by apply list_filter_iff.
Qed.

(** C5. In an accepted record, [description_fr] joins the "fr"-tagged
    description values with a blank line, or the untagged values when
    there is no "fr"-tagged value; [description_en] joins the "en"-tagged
    values and nothing else. *)
Theorem description_language_fallback rec N (dc_root : DcRoot) (rest : list DcRoot) :
  rec_metadata rec = dc_root :: rest →
  has_open_access dc_root = true →
  let row := (extract_record rec N).1 in
  let fr := description_values (Some "fr") dc_root in
  let en := description_values (Some "en") dc_root in
  let untagged := description_values None dc_root in
  row !! "description_fr"
    = Some (Py.join Py.blank_line (if bool_decide (fr = []) then untagged else fr)) ∧
  row !! "description_en" = Some (Py.join Py.blank_line en).
Proof.
  intros Hmd Hoa. cbv zeta.
  destruct (extract_record_accepted_descriptions rec N dc_root rest Hmd Hoa) as [-> ->].
  rewrite !description_values_lang, description_values_nolang.
  split; [|done]. f_equal.
  set (fr := xpath_description_lang "fr" dc_root).
  set (untagged := xpath_description_nolang dc_root).
  destruct (decide (texts fr = [])) as [Hfr | Hfr].
  - rewrite (bool_decide_eq_true_2 _ Hfr).
    rewrite (proj2 (join_texts_empty fr Py.blank_line) Hfr).
    cbn [Py.truthy String.eqb negb andb].
    destruct (bool_decide (untagged = [])) eqn:Hun; cbn [negb]; [|done].
    apply bool_decide_eq_true_1 in Hun. unfold join_texts. by rewrite Hun.
  - rewrite (bool_decide_eq_false_2 _ Hfr).
    destruct (Py.truthy (join_texts fr Py.blank_line)) eqn:Ht; [done|].
    by apply truthy_false, join_texts_empty in Ht.
Qed.

Lemma description_language_fallback_witness :
  rec_metadata thesis_b = thesis_b_dc :: [] ∧
  has_open_access thesis_b_dc = true ∧
  (extract_record thesis_b 3).1 !! "description_fr"
    = Some (Py.join Py.blank_line
              (if bool_decide (description_values (Some "fr") thesis_b_dc = [])
               then description_values None thesis_b_dc
               else description_values (Some "fr") thesis_b_dc)) ∧
  (extract_record thesis_b 3).1 !! "description_en"
    = Some (Py.join Py.blank_line (description_values (Some "en") thesis_b_dc)).
Proof.
  split; [reflexivity|]. split; [reflexivity|].
  exact (description_language_fallback thesis_b 3 thesis_b_dc [] eq_refl eq_refl).
Defined.

(** C6. In an accepted record, column [contributor_i] for [i] from 1 to N
    holds the i-th contributor value, or the empty string when there are
    fewer than [i] values; the row has no other contributor column, so
    values past the N-th are left out. *)
Theorem contributor_columns rec N (dc_root : DcRoot) (rest : list DcRoot) :
  0 ≤ N →
  rec_metadata rec = dc_root :: rest →
  has_open_access dc_root = true →
  let row := (extract_record rec N).1 in
  let contributors := texts (xpath_dc "contributor" dc_root) in
  (extract_record rec N).2 = true ∧
  (∀ i, 1 ≤ i ≤ N →
     row !! contributor_key i = Some (default "" (contributors !! Z.to_nat (i - 1)))) ∧
  (∀ i, ¬ (1 ≤ i ≤ N) → row !! contributor_key i = None).
Proof.
  intros HN Hmd Hoa. cbv zeta. split_and!.
  - by rewrite extract_record_flag, Hmd.
  - intros i Hi. by eapply extract_record_accepted_contributor.
  - intros i Hi. by apply extract_record_no_extra_contributor.
Qed.

Lemma contributor_columns_witness :
  0 ≤ 1 ∧
  rec_metadata thesis_a = thesis_a_dc :: [] ∧
  has_open_access thesis_a_dc = true ∧
  (extract_record thesis_a 1).2 = true ∧
  (∀ i, 1 ≤ i ≤ 1 →
     (extract_record thesis_a 1).1 !! contributor_key i
     = Some (default "" (texts (xpath_dc "contributor" thesis_a_dc) !! Z.to_nat (i - 1)))) ∧
  (∀ i, ¬ (1 ≤ i ≤ 1) → (extract_record thesis_a 1).1 !! contributor_key i = None).
Proof.
  assert (0 ≤ 1) as HN by lia.
  split; [exact HN|]. split; [reflexivity|]. split; [reflexivity|].
  exact (contributor_columns thesis_a 1 thesis_a_dc [] HN eq_refl eq_refl).
Defined.

(** C7, at a record whose only date value is "s.d. | 2019".  The first
    date value holds the token 2019, and [extract_year] finds it there; the
    row's year is empty, because the first date is taken by cutting the
    joined dates at the first " | ". *)
Theorem year_of_date_with_bar :
  texts (xpath_dc "date" thesis_undated_dc) = ["s.d. | 2019"] ∧
  extract_year "s.d. | 2019" = "2019" ∧
  (extract_record thesis_undated 3).2 = true ∧
  (extract_record thesis_undated 3).1 !! "date" = Some "s.d. | 2019" ∧
  (extract_record thesis_undated 3).1 !! "year" = Some "".
Proof. by vm_compute. Qed.

(** C8. The lines of the output are the header followed by the lines of
    the accepted records of the parsed pages, page after page and record
    after record: a map over a filter of the records in the order the
    endpoint returned them. *)
Theorem rows_in_endpoint_order cfg (server : list Response) :
  0 ≤ cfg_max_contributors cfg →
  ∃ docs : list Document,
    take (length docs) server = RespPage <$> docs ∧
    page (session_of (harvest cfg server)) = Z.of_nat (length docs) ∧
    out (session_of (harvest cfg server))
    = fieldnames (cfg_max_contributors cfg)
      :: (csv_line (cfg_max_contributors cfg)
            <$> filter (λ rec, accepted (cfg_max_contributors cfg) rec = true)
                       (concat (doc_records <$> docs))).
Proof.
  intros HN. unfold harvest.
  match goal with
  | |- context [harvest_loop cfg ?s server] =>
      destruct (harvest_loop_rows cfg server s HN) as (docs & Ht & Hp & Ho & _)
  end.
  exists docs. cbv zeta in *. cbn [page out] in *. rewrite Hp, Ho.
  split_and!; [done | lia | done].
Qed.

Lemma rows_in_endpoint_order_witness :
  0 ≤ cfg_max_contributors sample_cfg ∧
  ∃ docs : list Document,
    take (length docs) [RespPage page_one; RespPage page_two] = RespPage <$> docs ∧
    page (session_of (harvest sample_cfg [RespPage page_one; RespPage page_two]))
    = Z.of_nat (length docs) ∧
    out (session_of (harvest sample_cfg [RespPage page_one; RespPage page_two]))
    = fieldnames (cfg_max_contributors sample_cfg)
      :: (csv_line (cfg_max_contributors sample_cfg)
            <$> filter (λ rec, accepted (cfg_max_contributors sample_cfg) rec = true)
                       (concat (doc_records <$> docs))).
Proof.
  assert (0 ≤ cfg_max_contributors sample_cfg) as HN by (cbn; lia).
  split; [exact HN|].
  exact (rows_in_endpoint_order sample_cfg [RespPage page_one; RespPage page_two] HN).
Defined.

(** C9. A request made with a non-empty cursor has the verb and the
    resumption token and nothing else; the first request has the verb, the
    metadata format and, only when a set is configured, the set.  In a run
    the requests are one first request, then one resuming request for each
    page that returned a cursor and was followed. *)
Theorem request_parameters cfg :
  (∀ (prefix t : string) (set_spec : option string),
     t ≠ "" →
     oai_params prefix set_spec (Some t)
     = [("verb", "ListRecords"); ("resumptionToken", t)]) ∧
  oai_params (cfg_metadata_prefix cfg) (cfg_set_spec cfg) None = first_request cfg ∧
  (∀ server : list Response, ∃ docs : list Document,
     (RespPage <$> docs) `prefix_of` server ∧
     Forall has_cursor docs ∧
     requests (session_of (harvest cfg server))
     = first_request cfg :: (resume_request <$> docs)).
Proof.
  split_and!.
  - intros prefix t set_spec Ht. apply oai_params_resume. by apply truthy_true.
  - by apply oai_params_first.
  - intros server. unfold harvest.
    match goal with
    | |- context [harvest_loop cfg ?s server] =>
        destruct (harvest_loop_requests cfg server s) as (docs & Hpre & Hcur & Hreq)
    end.
    exists docs. cbv zeta in Hreq. cbn [token requests app] in Hreq.
    rewrite oai_params_first in Hreq by done. done.
Qed.

Lemma request_parameters_witness :
  "cursor-1" ≠ "" ∧
  oai_params "oai_dc" (Some "diffusable") (Some "cursor-1")
  = [("verb", "ListRecords"); ("resumptionToken", "cursor-1")].
Proof.
  assert ("cursor-1" ≠ "") as Hne by done.
  split; [exact Hne|].
  exact (proj1 (request_parameters sample_cfg) "oai_dc" "cursor-1" (Some "diffusable") Hne).
Defined.

(** C10. For a column count N that is not negative, the keys of the row
    are the fifteen fixed fields and contributor_1 .. contributor_N;
    [is_diffusable] is "0" or "1"; in a rejected row every field filled
    from the metadata, contributors included, is the empty string. *)
Theorem extract_record_row_shape rec N :
  0 ≤ N →
  let row := (extract_record rec N).1 in
  (∀ k, is_Some (row !! k) ↔ k ∈ fixed_fieldnames ++ (contributor_key <$> seqZ 1 N)) ∧
  length fixed_fieldnames = 15%nat ∧
  (row !! "is_diffusable" = Some "0" ∨ row !! "is_diffusable" = Some "1") ∧
  ((extract_record rec N).2 = false →
   (∀ k, k ∈ content_fieldnames → row !! k = Some "") ∧
   (∀ i, 1 ≤ i ≤ N → row !! contributor_key i = Some "")).
Proof.
  intros HN. cbv zeta. split_and!.
  - intros k. rewrite <- elem_of_dom, extract_record_dom by done.
    unfold fieldnames, Py.range. rewrite elem_of_list_to_set.
    by replace (N + 1 - 1) with N by lia.
  - done.
  - destruct (set_tags_flag rec N) as [-> | ->]; [by left | by right].
  - intros Hflag. split.
    + intros k Hk. by apply extract_record_rejected_fixed.
    + intros i Hi. by apply extract_record_rejected_contributor.
Qed.

Lemma extract_record_row_shape_witness :
  0 ≤ 3 ∧
  (∀ k, is_Some ((extract_record deleted_record 3).1 !! k)
        ↔ k ∈ fixed_fieldnames ++ (contributor_key <$> seqZ 1 3)) ∧
  length fixed_fieldnames = 15%nat ∧
  ((extract_record deleted_record 3).1 !! "is_diffusable" = Some "0" ∨
   (extract_record deleted_record 3).1 !! "is_diffusable" = Some "1") ∧
  ((extract_record deleted_record 3).2 = false →
   (∀ k, k ∈ content_fieldnames → (extract_record deleted_record 3).1 !! k = Some "") ∧
   (∀ i, 1 ≤ i ≤ 3 → (extract_record deleted_record 3).1 !! contributor_key i = Some "")).
Proof.
  assert (0 ≤ 3) as HN by lia.
  split; [exact HN|].
  exact (extract_record_row_shape deleted_record 3 HN).
Defined.

End claims.

(** * Further properties of the helpers *)

Section helper_properties.

Lemma texts_app (l1 l2 : list Element) : texts (l1 ++ l2) = texts l1 ++ texts l2.
Proof.
  induction l1 as [|n l1 IH]; simpl; [done|].
  destruct (Py.truthy _); simpl; by rewrite IH.
Qed.

Lemma strip_cons_space (c : ascii) (s : string) :
  Py.isspace c = true → Py.strip (String c s) = Py.strip s.
Proof. intros Hc. unfold Py.strip. cbn [Py.lstrip]. by rewrite Hc. Qed.

Lemma strip_cons_nonspace (c : ascii) (s : string) :
  Py.isspace c = false → ∃ r, Py.strip (String c s) = String c r.
Proof.
  intros Hc. unfold Py.strip. cbn [Py.lstrip]. rewrite Hc.
  by apply rstrip_cons_nonspace.
Qed.

Lemma strip_blank_iff (s : string) :
  Py.strip s = "" ↔ whitespace_only s = true.
Proof.
  induction s as [|c s IH]; [done|]. cbn [whitespace_only].
  destruct (Py.isspace c) eqn:Hc.
  - by rewrite strip_cons_space.
  - destruct (strip_cons_nonspace c s Hc) as [r ->]. done.
Qed.

(** X1. [texts] gives the trimmed text of every node whose text is not
    missing or whitespace only, in document order, and of no other node:
    every value it returns is non-empty and has no whitespace left to
    trim. *)
Theorem texts_values_clean (nodes : list Element) :
  texts nodes
  = (λ n, Py.strip (text_or_empty n))
      <$> filter (λ n, whitespace_only (text_or_empty n) = false) nodes ∧
  Forall (λ v, v ≠ "" ∧ Py.strip v = v) (texts nodes).
Proof.
  split.
  - induction nodes as [|n nodes IH]; [done|]. cbn [texts].
    destruct (Py.truthy _) eqn:Ht.
    + apply truthy_true in Ht. rewrite filter_cons_True.
      * cbn [fmap list_fmap]. by rewrite IH.
      * apply not_true_is_false. by rewrite <- strip_blank_iff.
    + apply truthy_false, strip_blank_iff in Ht.
      rewrite filter_cons_False by congruence. done.
  - apply Forall_forall. intros v (n & _ & -> & Hne)%elem_of_texts.
    split; [done | apply strip_idem].
Qed.

(** X2. A joined cell is empty exactly when every node has a missing or
    whitespace-only text, whatever the separator. *)
Theorem join_texts_blank_iff (nodes : list Element) (sep : string) :
  join_texts nodes sep = "" ↔
  Forall (λ n, whitespace_only (text_or_empty n) = true) nodes.
Proof.
  rewrite join_texts_empty, Forall_forall. split.
  - intros Hnil n Hn. apply strip_blank_iff.
    destruct (decide (Py.strip (text_or_empty n) = "")) as [|Hne]; [done|].
    assert (Py.strip (text_or_empty n) ∈ texts nodes) as Hin.
    { apply elem_of_texts. by exists n. }
    rewrite Hnil in Hin. by apply elem_of_nil in Hin.
  - intros Hall. destruct (texts nodes) as [|v vs] eqn:Hv; [done|].
    assert (v ∈ texts nodes) as Hin by (rewrite Hv; left).
    apply elem_of_texts in Hin as (n & Hn & -> & Hne).
    by apply Hall, strip_blank_iff in Hn.
Qed.

(** X3. [extract_year] returns the leftmost year token of the string, and
    the empty string exactly when the string has no such token. *)
Theorem extract_year_leftmost_or_none (s : string) :
  (extract_year s = "" ∧ ∀ pre y post, ¬ year_occurs None s pre y post) ∨
  (∃ pre post,
     year_occurs None s pre (extract_year s) post ∧
     ∀ pre' y' post', year_occurs None s pre' y' post' →
                      (String.length pre ≤ String.length pre')%nat).
Proof.
  destruct (extract_year s) as [|c y] eqn:Hy.
  - left. split; [done|]. by apply extract_year_empty.
  - right. by apply extract_year_sound.
Qed.

(** X4. A date that starts with a year token, followed by the end of the
    string or by a character that is not a word character, yields that
    token: YYYY and YYYY-MM-DD give YYYY. *)
Theorem extract_year_leading_token (y post : string) :
  year_token y →
  isword_opt (first_char post) = false →
  extract_year (y +:+ post) = y.
Proof.
  intros Hy Hpost.
  assert (year_match_here None (y +:+ post) = Some y) as Hm.
  { apply year_match_here_spec. by exists post. }
  destruct Hy as (a & b & c & d & -> & _).
  unfold extract_year. cbv [String.append] in *. fold String.append in *.
  cbn [Py.truthy String.eqb negb year_search]. by rewrite Hm.
Qed.

Lemma extract_year_leading_token_witness :
  year_token "2019" ∧
  isword_opt (first_char "-05-10") = false ∧
  extract_year ("2019" +:+ "-05-10") = "2019".
Proof.
  assert (year_token "2019") as Hy.
  { by exists "2"%char, "0"%char, "1"%char, "9"%char. }
  assert (isword_opt (first_char "-05-10") = false) as Hpost by reflexivity.
  split; [exact Hy|]. split; [exact Hpost|].
  exact (extract_year_leading_token "2019" "-05-10" Hy Hpost).
Defined.

(** X5. The request parameters never repeat a key and always start with
    the verb; a resumption token is never sent with a metadata format or a
    set; an empty token or set counts as none. *)
Theorem oai_params_shape (prefix : string) (set_spec token : option string) :
  let params := oai_params prefix set_spec token in
  NoDup params.*1 ∧
  head params = Some ("verb", "ListRecords") ∧
  ("resumptionToken" ∈ params.*1 → params.*1 = ["verb"; "resumptionToken"]) ∧
  oai_params prefix set_spec (Some "") = oai_params prefix set_spec None ∧
  oai_params prefix (Some "") token = oai_params prefix None token.
Proof.
  cbv zeta. unfold oai_params.
  destruct (Py.truthy_opt token), (Py.truthy_opt set_spec);
    cbn [fmap list_fmap fst app head];
    (split_and!; [| done | | done | done]);
    try (repeat constructor; set_solver);
    try done; intros Hin; exfalso; set_solver.
Qed.

(** X7. Whether a payload counts as open access depends on its rights
    elements only, and neither on their order nor on what stands between
    them: the test of a concatenation is the disjunction of the tests, and
    reordering the payload does not change the test. *)
Theorem has_open_access_order (a b : DcRoot) :
  has_open_access (a ++ b) = has_open_access a || has_open_access b ∧
  (a ≡ₚ b → has_open_access a = has_open_access b).
Proof.
  split.
  - unfold has_open_access, xpath_dc. by rewrite filter_app, texts_app, existsb_app.
  - intros Hab.
    assert (open_access_value a ↔ open_access_value b) as Hiff.
    { unfold open_access_value. by setoid_rewrite Hab. }
    rewrite <- !has_open_access_spec in Hiff.
    destruct (has_open_access a), (has_open_access b); try done.
    + by destruct (proj1 Hiff).
    + by destruct (proj2 Hiff).
Qed.

Lemma has_open_access_order_witness :
  [elem "title" "T"; elem "rights" "Open Access"]
    ≡ₚ [elem "rights" "Open Access"; elem "title" "T"] ∧
  has_open_access [elem "title" "T"; elem "rights" "Open Access"]
  = has_open_access [elem "rights" "Open Access"; elem "title" "T"].
Proof.
  assert ([elem "title" "T"; elem "rights" "Open Access"]
            ≡ₚ [elem "rights" "Open Access"; elem "title" "T"]) as Hperm
    by apply perm_swap.
  split; [exact Hperm|].
  exact (proj2 (has_open_access_order _ _) Hperm).
Defined.

End helper_properties.

(** * Further properties of the record extraction *)

Section extraction_properties.

Implicit Types (row : gmap string string) (k : string) (rec : RecordNode) (N : Z).

Ltac cell_lookup :=
  repeat first
    [ rewrite lookup_fill_contributors_fixed by (by apply fixed_elem)
    | rewrite lookup_blank_contributors_fixed by (by apply fixed_elem)
    | rewrite lookup_insert_eq
    | rewrite lookup_insert_ne by done
    | progress cbn [list_to_map foldr fst snd] ].

Lemma accepted_row_joined rec N (dc_root : DcRoot) (rest : list DcRoot)
    (field : string) :
  rec_metadata rec = dc_root :: rest →
  has_open_access dc_root = true →
  field ∈ joined_fieldnames →
  (extract_record rec N).1 !! field
  = Some (Py.join " | " (texts (xpath_dc field dc_root))).
Proof.
  intros Hmd Hoa Hfield. unfold extract_record. rewrite Hmd, Hoa. cbn [fst negb].
  unfold joined_fieldnames in Hfield. unfold join_texts.
  destruct (_ && _);
    repeat (apply elem_of_cons in Hfield as [-> | Hfield]; [by cell_lookup|]);
    by apply elem_of_nil in Hfield.
Qed.

(** X8. In an accepted row each of the columns title, subject, language,
    identifier, creator, date and rights holds the values of the element
    of that name, joined with " | ". *)
Theorem accepted_row_joined_fields rec N (dc_root : DcRoot) (rest : list DcRoot)
    (field : string) :
  rec_metadata rec = dc_root :: rest →
  has_open_access dc_root = true →
  field ∈ joined_fieldnames →
  (extract_record rec N).1 !! field
  = Some (Py.join " | " (texts (xpath_dc field dc_root))).
Proof. apply accepted_row_joined. Qed.

Lemma accepted_row_joined_fields_witness :
  rec_metadata thesis_a = thesis_a_dc :: [] ∧
  has_open_access thesis_a_dc = true ∧
  "title" ∈ joined_fieldnames ∧
  (extract_record thesis_a 3).1 !! "title"
  = Some (Py.join " | " (texts (xpath_dc "title" thesis_a_dc))).
Proof.
  assert ("title" ∈ joined_fieldnames) as Hfield by left.
  split; [reflexivity|]. split; [reflexivity|]. split; [exact Hfield|].
  exact (accepted_row_joined_fields thesis_a 3 thesis_a_dc [] "title"
           eq_refl eq_refl Hfield).
Defined.

(** X9. The rights cell tells accepted rows from rejected ones: it is
    non-empty in every accepted row and empty in every rejected one. *)
Theorem accepted_iff_rights_cell rec N :
  (extract_record rec N).2 = true ↔ (extract_record rec N).1 !! "rights" ≠ Some "".
Proof.
  destruct ((extract_record rec N).2) eqn:Hflag.
  - split; [intros _|done]. rewrite extract_record_flag in Hflag.
    destruct (rec_metadata rec) as [|dc_root rest] eqn:Hmd; [done|].
    rewrite (accepted_row_joined rec N dc_root rest "rights" Hmd Hflag)
      by (unfold joined_fieldnames; set_solver).
    intros [= Hj]. apply (join_nonempty _ _ (texts_nonblank _)) in Hj.
    unfold has_open_access in Hflag. rewrite Hj in Hflag. done.
  - split; [done|]. intros Hne. exfalso. apply Hne.
    apply extract_record_rejected_fixed; [done|]. unfold content_fieldnames. set_solver.
Qed.

(** X10. Whether or not the record is accepted, the row carries the
    trimmed identifier and the setSpecs joined with " | ", and the
    classification and institution cells are each empty or one of the
    setSpecs. *)
Theorem header_cells rec N :
  let row := (extract_record rec N).1 in
  let sets := texts (rec_setSpec rec) in
  row !! "oai_id" = Some (Py.strip (rec_identifier rec)) ∧
  row !! "setSpecs_raw" = Some (Py.join " | " sets) ∧
  (∃ v, row !! "set_ddc" = Some v ∧ (v = "" ∨ v ∈ sets)) ∧
  (∃ v, row !! "set_etab" = Some v ∧ (v = "" ∨ v ∈ sets)).
Proof.
  cbv zeta. destruct (extract_record_header rec N) as (-> & -> & -> & -> & _).
  destruct (classify_foldl (texts (rec_setSpec rec)) (mkSetTags "" "" "0")
              (texts_nonblank _)) as (Hddc & _ & Hetab).
  unfold classify_sets. rewrite Hddc, Hetab. cbn [set_ddc set_etab Py.truthy String.eqb negb].
  split_and!; [done | done | |]; eexists; (split; [done|]).
  - destruct (last _) as [v|] eqn:Hlast; [right | by left].
    apply last_Some_elem_of in Hlast. by apply list_elem_of_filter in Hlast as [_ ?].
  - destruct (head _) as [v|] eqn:Hhead; [right | by left].
    apply head_Some_elem_of in Hhead. by apply list_elem_of_filter in Hhead as [_ ?].
Qed.

End extraction_properties.

(** * Further properties of the rows *)

Section row_properties.

Implicit Types (row : gmap string string) (k : string) (rec : RecordNode) (N : Z).

Ltac cell_lookup :=
  repeat first
    [ rewrite lookup_fill_contributors_fixed by (by apply fixed_elem)
    | rewrite lookup_blank_contributors_fixed by (by apply fixed_elem)
    | rewrite lookup_insert_eq
    | rewrite lookup_insert_ne by done
    | progress cbn [list_to_map foldr fst snd] ].

Lemma append_assoc (a b c : string) : (a +:+ b) +:+ c = a +:+ b +:+ c.
Proof. induction a as [|x a IH]; [done|]. by rewrite !append_cons, IH. Qed.

Lemma append_nil_r (a : string) : a +:+ "" = a.
Proof. induction a as [|x a IH]; [done|]. by rewrite append_cons, IH. Qed.

Lemma space_not_word (c : ascii) : Py.isspace c = true → Py.isword c = false.
Proof. destruct c as [[] [] [] [] [] [] [] []]; by vm_compute. Qed.

Lemma lstrip_decompose (s : string) :
  ∃ l, s = l +:+ Py.lstrip s ∧ whitespace_only l = true.
Proof.
  induction s as [|c s (l & Hs & Hl)]; [by exists ""|].
  cbn [Py.lstrip]. destruct (Py.isspace c) eqn:Hc.
  - exists (String c l). rewrite append_cons, <- Hs. cbn [whitespace_only].
    by rewrite Hc, Hl.
  - by exists "".
Qed.

Lemma rstrip_decompose (s : string) :
  ∃ r, s = Py.rstrip s +:+ r ∧ whitespace_only r = true.
Proof.
  induction s as [|c s (r & Hs & Hr)]; [by exists ""|].
  cbn [Py.rstrip]. destruct (Py.rstrip s) as [|d t] eqn:Ht.
  - rewrite append_nil in Hs. subst r. destruct (Py.isspace c) eqn:Hc.
    + exists (String c s). cbn [whitespace_only]. by rewrite Hc, Hr.
    + by exists s.
  - exists r. by rewrite append_cons, <- Hs.
Qed.

Lemma strip_decompose (s : string) :
  ∃ l r, s = l +:+ Py.strip s +:+ r ∧
         whitespace_only l = true ∧ whitespace_only r = true.
Proof.
  destruct (lstrip_decompose s) as (l & Hs & Hl).
  destruct (rstrip_decompose (Py.lstrip s)) as (r & Ht & Hr).
  exists l, r. unfold Py.strip. by rewrite <- Ht.
Qed.

Lemma split_head_decompose (sep s : string) :
  ∃ rest, s = Py.split_head sep s +:+ rest ∧
          (rest = "" ∨ String.prefix sep rest = true).
Proof.
  induction s as [|c s (rest & Hs & Hrest)].
  - exists "". cbn [Py.split_head]. destruct (String.prefix sep ""); by split; [|left].
  - cbn [Py.split_head]. destruct (String.prefix sep (String c s)) eqn:Hp.
    + exists (String c s). split; [done | by right].
    + exists rest. by rewrite append_cons, <- Hs.
Qed.

Lemma last_char_app (prev : option ascii) (a b : string) :
  last_char prev (a +:+ b) = last_char (last_char prev a) b.
Proof. revert prev. induction a as [|x a IH]; intros prev; [done|]. apply IH. Qed.

Lemma last_char_whitespace (prev : option ascii) (l : string) :
  isword_opt prev = false → whitespace_only l = true →
  isword_opt (last_char prev l) = false.
Proof.
  revert prev. induction l as [|c l IH]; intros prev Hprev Hl; [done|].
  cbn [whitespace_only] in Hl. apply andb_true_iff in Hl as [Hc Hl].
  cbn [last_char]. apply IH; [|done]. by apply space_not_word.
Qed.

Lemma first_char_whitespace (l tail : string) :
  whitespace_only l = true → isword_opt (first_char tail) = false →
  isword_opt (first_char (l +:+ tail)) = false.
Proof.
  destruct l as [|c l]; [done|]. cbn [whitespace_only]. intros [Hc _]%andb_true_iff _.
  by apply space_not_word.
Qed.

(** A token of the trimmed first segment of a date cell is a token of the
    cell. *)
Lemma year_occurs_first_date (date pre y post : string) :
  year_occurs None (first_date date) pre y post →
  ∃ pre' post', year_occurs None date pre' y post'.
Proof.
  unfold first_date. destruct (Py.truthy date).
  2: { intros (Hs & (a & b & c & d & -> & _) & _). by destruct pre. }
  intros (Hfirst & Hy & Hpre & Hpost).
  destruct (split_head_decompose " | " date) as (rest & Hdate & Hrest).
  destruct (strip_decompose (Py.split_head " | " date)) as (l & r & Hseg & Hl & Hr).
  exists (l +:+ pre), (post +:+ r +:+ rest). split_and!; [|done| |].
  - rewrite Hdate, Hseg, Hfirst. by rewrite !append_assoc.
  - rewrite last_char_app. destruct pre as [|x pre]; [|done].
    cbn [last_char]. by apply (last_char_whitespace None).
  - destruct post as [|x post]; [|done]. rewrite append_nil.
    apply first_char_whitespace; [done|].
    destruct Hrest as [-> | [r' ->]%prefix_spec]; done.
Qed.

(** X11. In every row the year cell is empty or a year token that stands
    in the date cell of the same row, with no word character on either
    side of it. *)
Theorem row_year_from_date_cell rec N :
  ∃ date y,
    (extract_record rec N).1 !! "date" = Some date ∧
    (extract_record rec N).1 !! "year" = Some y ∧
    (y = "" ∨ ∃ pre post, year_occurs None date pre y post).
Proof.
  destruct ((extract_record rec N).2) eqn:Hflag.
  - rewrite extract_record_flag in Hflag.
    destruct (rec_metadata rec) as [|dc_root rest] eqn:Hmd; [done|].
    destruct (extract_record_accepted_date rec N dc_root rest Hmd Hflag) as [-> ->].
    eexists _, _. split_and!; [done..|].
    destruct (extract_year (first_date (join_texts (xpath_dc "date" dc_root) " | ")))
      as [|c y] eqn:Hy; [by left | right].
    destruct (extract_year_sound _ _ Hy) as (pre & post & Hocc & _); [done|].
    by eapply year_occurs_first_date.
  - exists "", "". split_and!; [..|by left];
      (apply extract_record_rejected_fixed; [done|]);
      unfold content_fieldnames; set_solver.
Qed.

#[local] Instance contributor_key_Inj : Inj (=) (=) contributor_key.
Proof. intros i j. apply contributor_key_inj. Qed.

(** X12. The header has no repeated column, and it has fifteen columns
    plus one per contributor (none for a negative count). *)
Theorem fieldnames_distinct N :
  NoDup (fieldnames N) ∧ length (fieldnames N) = (15 + Z.to_nat N)%nat.
Proof.
  unfold fieldnames, Py.range. replace (N + 1 - 1) with N by lia. split.
  - apply NoDup_app. split_and!.
    + by apply (bool_decide_unpack _).
    + intros k Hk (i & -> & _)%list_elem_of_fmap. by eapply fixed_not_contributor.
    + apply (NoDup_fmap_2 _), NoDup_seqZ.
  - by rewrite length_app, length_fmap, length_seqZ.
Qed.

(** X13. For a column count that is not negative, the line written for a
    record has one cell per column, and the cell under a column is the
    value the row holds for that key: no cell is defaulted. *)
Theorem csv_line_cells rec N (i : nat) (k : string) :
  0 ≤ N →
  fieldnames N !! i = Some k →
  length (csv_line N rec) = length (fieldnames N) ∧
  ∃ v, (extract_record rec N).1 !! k = Some v ∧ csv_line N rec !! i = Some v.
Proof.
  intros HN Hk. unfold csv_line. split; [by rewrite length_fmap|].
  assert (k ∈ dom (extract_record rec N).1) as [v Hv]%elem_of_dom.
  { rewrite extract_record_dom by done. apply elem_of_list_to_set.
    by eapply list_elem_of_lookup_2. }
  exists v. split; [done|]. rewrite list_lookup_fmap, Hk. cbn [fmap option_fmap option_map].
  by rewrite Hv.
Qed.

Lemma csv_line_cells_witness :
  0 ≤ 3 ∧
  fieldnames 3 !! 5%nat = Some "title" ∧
  length (csv_line 3 thesis_a) = length (fieldnames 3) ∧
  ∃ v, (extract_record thesis_a 3).1 !! "title" = Some v ∧
       csv_line 3 thesis_a !! 5%nat = Some v.
Proof.
  assert (0 ≤ 3) as HN by lia.
  assert (fieldnames 3 !! 5%nat = Some "title") as Hk by reflexivity.
  split; [exact HN|]. split; [exact Hk|].
  exact (csv_line_cells thesis_a 3 5 "title" HN Hk).
Defined.

Lemma extract_record_fixed_indep rec N M k :
  k ∈ fixed_fieldnames →
  (extract_record rec N).1 !! k = (extract_record rec M).1 !! k.
Proof.
  intros Hk. unfold extract_record.
  destruct (rec_metadata rec) as [|dc_root rest];
    [|destruct (has_open_access dc_root); cbn [negb]; [destruct (_ && _)|]];
    cbn [fst];
    rewrite ?lookup_fill_contributors_fixed by done;
    rewrite ?lookup_insert;
    by rewrite !lookup_blank_contributors_fixed by done.
Qed.

(** X14. Raising the contributor count only adds columns: every cell of
    the row for a count N is in the row for a larger count M with the same
    value, and the record is accepted for both or for neither. *)
Theorem more_contributor_columns rec N M :
  0 ≤ N ≤ M →
  (extract_record rec N).1 ⊆ (extract_record rec M).1 ∧
  (extract_record rec N).2 = (extract_record rec M).2.
Proof.
  intros HNM. split; [|by rewrite !extract_record_flag].
  apply map_subseteq_spec. intros k v Hv.
  assert (k ∈ dom (extract_record rec N).1) as Hk by (by apply elem_of_dom).
  rewrite extract_record_dom in Hk by lia.
  unfold fieldnames, Py.range in Hk.
  apply elem_of_list_to_set, elem_of_app in Hk as [Hk | (i & -> & Hi)%list_elem_of_fmap].
  - by rewrite <- (extract_record_fixed_indep rec N M k Hk).
  - apply elem_of_seqZ in Hi. rewrite <- Hv.
    destruct ((extract_record rec N).2) eqn:Hflag.
    + rewrite extract_record_flag in Hflag.
      destruct (rec_metadata rec) as [|dc_root rest] eqn:Hmd; [done|].
      rewrite !(extract_record_accepted_contributor rec _ dc_root rest i Hmd Hflag)
        by lia. done.
    + rewrite !extract_record_rejected_contributor; try done; try lia.
      by rewrite extract_record_flag, <- (extract_record_flag rec N).
Qed.

Lemma more_contributor_columns_witness :
  0 ≤ 1 ≤ 3 ∧
  (extract_record thesis_a 1).1 ⊆ (extract_record thesis_a 3).1 ∧
  (extract_record thesis_a 1).2 = (extract_record thesis_a 3).2.
Proof.
  assert (0 ≤ 1 ≤ 3) as HNM by lia.
  split; [exact HNM|]. exact (more_contributor_columns thesis_a 1 3 HNM).
Defined.

(** X15. In an accepted row the year is the scan of the first date value
    whenever that value has no bar in it, and it is empty when the record
    has no date value. *)
Theorem row_year_of_first_date rec N (dc_root : DcRoot) (rest : list DcRoot) :
  rec_metadata rec = dc_root :: rest →
  has_open_access dc_root = true →
  match texts (xpath_dc "date" dc_root) with
  | [] => (extract_record rec N).1 !! "year" = Some ""
  | v :: _ =>
      Py.contains "|" v = false →
      (extract_record rec N).1 !! "year" = Some (extract_year v)
  end.
Proof.
  intros Hmd Hoa. destruct (texts (xpath_dc "date" dc_root)) as [|v vs] eqn:Hdates.
  - by eapply year_without_date.
  - intros Hbar. by eapply year_from_first_date_value.
Qed.

Lemma row_year_of_first_date_witness :
  rec_metadata thesis_a = thesis_a_dc :: [] ∧
  has_open_access thesis_a_dc = true ∧
  (Py.contains "|" "2019-05-10" = false →
   (extract_record thesis_a 3).1 !! "year" = Some (extract_year "2019-05-10")).
Proof.
  split; [reflexivity|]. split; [reflexivity|].
  exact (row_year_of_first_date thesis_a 3 thesis_a_dc [] eq_refl eq_refl).
Defined.

End row_properties.

(** * Further properties of the harvest loop *)

Section harvest_properties.

Implicit Types (cfg : Config) (st : Session) (rec : RecordNode).

Lemma process_record_consistent cfg st rec :
  session_consistent (cfg_max_contributors cfg) st →
  session_consistent (cfg_max_contributors cfg) (session_of (process_record cfg st rec)).
Proof.
  intros (lines & Hout & Hlen & Hall & Hle). unfold process_record.
  destruct (is_deleted rec); [by exists lines|].
  destruct (extract_record _ _) as [row [|]]; cbn [seen kept out].
  - unfold writerow. case_decide; cbn [session_of seen kept out].
    + eexists (lines ++ [_]). rewrite Hout. split_and!.
      * done.
      * rewrite length_app. cbn [length kept]. lia.
      * apply Forall_app. split; [done|]. constructor; [|done]. by rewrite length_fmap.
      * cbn [seen kept]. lia.
    + exists lines. split_and!; [done..|cbn [seen kept]; lia].
  - exists lines. cbn [session_of]. split_and!; [done..|cbn [seen kept]; lia].
Qed.

Lemma process_records_consistent cfg st (records : list RecordNode) :
  session_consistent (cfg_max_contributors cfg) st →
  session_consistent (cfg_max_contributors cfg) (session_of (process_records cfg st records)).
Proof.
  revert st. induction records as [|rec records IH]; intros st Hst; [done|].
  cbn [process_records].
  pose proof (process_record_consistent cfg st rec Hst) as Hrec.
  destruct (process_record cfg st rec) as [st1|e st1]; [by apply IH | done].
Qed.

Lemma harvest_loop_consistent cfg (server : list Response) st :
  session_consistent (cfg_max_contributors cfg) st →
  session_consistent (cfg_max_contributors cfg) (session_of (harvest_loop cfg st server)).
Proof.
  revert st. induction server as [|resp server IH]; intros st Hst; [done|].
  destruct resp as [| |doc]; [done..|].
  rewrite harvest_loop_page. cbv zeta.
  match goal with
  | |- context [process_records cfg ?s (doc_records doc)] =>
      pose proof (process_records_consistent cfg s (doc_records doc) Hst) as Hpage
  end.
  destruct (process_records _ _ _) as [s|e s]; [|done].
  destruct (page_limit_reached _ _); [done|].
  destruct (negb _); [done|]. by apply IH.
Qed.

(** X16. At the end of every run, finished or aborted and whatever the
    configuration, the output is the header followed by exactly [kept]
    lines, every line has as many cells as the header, and [kept] is at
    most [seen]. *)
Theorem harvest_output_consistent cfg (server : list Response) :
  session_consistent (cfg_max_contributors cfg) (session_of (harvest cfg server)).
Proof.
  apply harvest_loop_consistent. exists []. cbn [out kept seen length].
  split_and!; [done | done | constructor | lia].
Qed.

(** Where the loop stands after pages that all return a cursor, none of
    which reaches the page limit. *)
Lemma harvest_loop_continues cfg (docs : list Document) (tail : list Response) st :
  0 ≤ cfg_max_contributors cfg →
  Forall has_cursor docs →
  docs = [] ∨ limit_above (cfg_max_pages cfg) (page st + Z.of_nat (length docs)) →
  ∃ st1,
    harvest_loop cfg st ((RespPage <$> docs) ++ tail) = harvest_loop cfg st1 tail ∧
    page st1 = page st + Z.of_nat (length docs) ∧
    out st1 = out st
              ++ csv_lines (cfg_max_contributors cfg) (concat (doc_records <$> docs)) ∧
    length (requests st1) = (length (requests st) + length docs)%nat.
Proof.
  intros HN Hdocs. revert st.
  induction Hdocs as [|d docs Hd Hdocs IH]; intros st Hlimit.
  { exists st. cbn. rewrite Z.add_0_r, app_nil_r, Nat.add_0_r. done. }
  destruct Hlimit as [? | Hlimit]; [done|].
  cbn [fmap list_fmap app]. rewrite harvest_loop_page. cbv zeta.
  rewrite process_records_spec by done. cbn [seen kept token page out requests].
  assert (page_limit_reached (cfg_max_pages cfg) (page st + 1) = false) as ->.
  { unfold limit_above, page_limit_reached in *.
    destruct (cfg_max_pages cfg) as [m|]; [|done]. apply Z.leb_gt.
    cbn [length] in Hlimit. lia. }
  cbn [Py.truthy_opt]. rewrite (proj2 (truthy_true _) Hd). cbn [negb].
  match goal with
  | |- context [harvest_loop cfg ?s _] =>
      destruct (IH s) as (st1 & Hrun & Hpage & Hout & Hreq)
  end.
  { right. cbn [page length] in *.
    by replace (page st + 1 + Z.of_nat (length docs))
      with (page st + Z.of_nat (S (length docs))) by lia. }
  exists st1. cbn [page out requests token] in *. split_and!.
  - done.
  - cbn [length]. lia.
  - rewrite Hout. cbn [fmap list_fmap concat]. by rewrite csv_lines_app, app_assoc.
  - rewrite Hreq, length_app. cbn [length]. lia.
Qed.

(** X17. When the endpoint fails, or answers with a body that does not
    parse, after pages that were all followed, the run aborts with the
    matching error at once: the lines of those pages stay in the output,
    and the failed request is the last one sent. *)
Theorem harvest_aborts_on_error cfg (docs : list Document) (bad : Response)
    (e : HarvestError) (post : list Response) :
  0 ≤ cfg_max_contributors cfg →
  Forall has_cursor docs →
  docs = [] ∨ limit_above (cfg_max_pages cfg) (Z.of_nat (length docs)) →
  error_of bad = Some e →
  ∃ st', harvest cfg ((RespPage <$> docs) ++ bad :: post) = Failed e st' ∧
         out st' = fieldnames (cfg_max_contributors cfg)
                   :: csv_lines (cfg_max_contributors cfg) (concat (doc_records <$> docs)) ∧
         page st' = Z.of_nat (length docs) ∧
         length (requests st') = S (length docs).
Proof.
  intros HN Hdocs Hlimit Hbad. unfold harvest.
  match goal with
  | |- context [harvest_loop cfg ?s _] =>
      destruct (harvest_loop_continues cfg docs (bad :: post) s HN Hdocs)
        as (st1 & -> & Hpage & Hout & Hreq)
  end.
  { by rewrite Z.add_0_l. }
  cbn [page out requests length] in *.
  destruct bad; simplify_eq/=; eexists; (split; [done|]); cbn [page out requests];
    rewrite length_app; cbn [length]; split_and!; try done; lia.
Qed.

Lemma harvest_aborts_on_error_witness :
  0 ≤ cfg_max_contributors sample_cfg ∧
  Forall has_cursor [page_one] ∧
  ([page_one] = [] ∨ limit_above (cfg_max_pages sample_cfg) (Z.of_nat (length [page_one]))) ∧
  error_of RespMalformed = Some ParseError ∧
  ∃ st', harvest sample_cfg ((RespPage <$> [page_one]) ++ RespMalformed :: [])
         = Failed ParseError st' ∧
         out st' = fieldnames (cfg_max_contributors sample_cfg)
                   :: csv_lines (cfg_max_contributors sample_cfg)
                        (concat (doc_records <$> [page_one])) ∧
         page st' = Z.of_nat (length [page_one]) ∧
         length (requests st') = S (length [page_one]).
Proof.
  assert (0 ≤ cfg_max_contributors sample_cfg) as HN by (cbn; lia).
  assert (Forall has_cursor [page_one]) as Hdocs by (by repeat constructor).
  assert ([page_one] = [] ∨
          limit_above (cfg_max_pages sample_cfg) (Z.of_nat (length [page_one])))
    as Hlimit by (right; exact I).
  assert (error_of RespMalformed = Some ParseError) as Hbad by reflexivity.
  split_and!; [done..|].
  exact (harvest_aborts_on_error sample_cfg [page_one] RespMalformed ParseError []
           HN Hdocs Hlimit Hbad).
Defined.

(** X18. With a page limit m, the page that brings the count to m ends
    the run normally, cursor or not: after pages that were all followed
    and did not reach the limit, the next page is the last, and the cursor
    it returned is left unused.  A limit of zero or less stops after the
    first page. *)
Theorem harvest_stops_at_page_limit cfg (m : Z) (pre : list Document) (doc : Document)
    (post : list Response) :
  0 ≤ cfg_max_contributors cfg →
  cfg_max_pages cfg = Some m →
  Forall has_cursor pre →
  pre = [] ∨ Z.of_nat (length pre) < m →
  m ≤ Z.of_nat (length pre) + 1 →
  ∃ st', harvest cfg ((RespPage <$> pre ++ [doc]) ++ post) = Done st' ∧
         page st' = Z.of_nat (S (length pre)) ∧
         length (requests st') = S (length pre) ∧
         token st' = Some (parse_page doc).2 ∧
         out st' = fieldnames (cfg_max_contributors cfg)
                   :: csv_lines (cfg_max_contributors cfg)
                        (concat (doc_records <$> pre ++ [doc])).
Proof.
  intros HN Hm Hpre Hbelow Hreach. unfold harvest.
  rewrite fmap_app, <- app_assoc.
  match goal with
  | |- context [harvest_loop cfg ?s _] =>
      destruct (harvest_loop_continues cfg pre ((RespPage <$> [doc]) ++ post) s HN Hpre)
        as (st1 & -> & Hpage & Hout & Hreq)
  end.
  { unfold limit_above. rewrite Hm, Z.add_0_l. done. }
  cbn [fmap list_fmap app]. rewrite harvest_loop_page. cbv zeta.
  rewrite process_records_spec by done. cbn [seen kept token page out requests] in *.
  assert (page_limit_reached (cfg_max_pages cfg) (page st1 + 1) = true) as ->.
  { unfold page_limit_reached. rewrite Hm. apply Z.leb_le. lia. }
  eexists. split; [done|]. cbn [page requests token out].
  rewrite length_app, Hreq, Hout, fmap_app, concat_app, csv_lines_app.
  cbn [length fmap list_fmap concat]. rewrite app_nil_r.
  split_and!; [lia | lia | done | done].
Qed.

Lemma harvest_stops_at_page_limit_witness :
  0 ≤ cfg_max_contributors zero_limit_cfg ∧
  cfg_max_pages zero_limit_cfg = Some 0 ∧
  Forall has_cursor [] ∧
  (@nil Document = [] ∨ Z.of_nat (length (@nil Document)) < 0) ∧
  0 ≤ Z.of_nat (length (@nil Document)) + 1 ∧
  ∃ st', harvest zero_limit_cfg
           ((RespPage <$> [] ++ [page_one]) ++ [RespPage page_two]) = Done st' ∧
         page st' = Z.of_nat (S (length (@nil Document))) ∧
         length (requests st') = S (length (@nil Document)) ∧
         token st' = Some (parse_page page_one).2 ∧
         out st' = fieldnames 3
                   :: csv_lines 3 (concat (doc_records <$> [] ++ [page_one])).
Proof.
  assert (0 ≤ cfg_max_contributors zero_limit_cfg) as HN
    by (cbn; lia).
  assert (@nil Document = [] ∨ Z.of_nat (length (@nil Document)) < 0) as Hbelow
    by (by left).
  assert (0 ≤ Z.of_nat (length (@nil Document)) + 1) as Hreach by (cbn; lia).
  split_and!; [done..|].
  exact (harvest_stops_at_page_limit zero_limit_cfg 0 []
           page_one [RespPage page_two] HN eq_refl (Forall_nil_2 _) Hbelow Hreach).
Defined.

Lemma harvest_loop_requests_count cfg (server : list Response) st :
  let st' := session_of (harvest_loop cfg st server) in
  let sent := Z.of_nat (length (requests st')) - Z.of_nat (length (requests st)) in
  1 ≤ sent ∧
  page st' - page st ≤ sent ≤ page st' - page st + 1 ∧
  (∀ m, cfg_max_pages cfg = Some m → sent ≤ Z.max 1 (m - page st)).
Proof.
  revert st. induction server as [|resp server IH]; intros st; cbv zeta.
  { cbn [harvest_loop session_of requests page]. rewrite length_app. cbn [length].
    split_and!; [lia..|]. intros m _. lia. }
  destruct resp as [| |doc].
  1,2: cbn [harvest_loop session_of requests page]; rewrite length_app; cbn [length];
       (split_and!; [lia..|]); intros m _; lia.
  rewrite harvest_loop_page. cbv zeta.
  match goal with
  | |- context [process_records cfg ?s (doc_records doc)] =>
      pose proof (process_records_frame cfg s (doc_records doc)) as (_ & Hp & Hr)
  end.
  cbn [page requests] in Hp, Hr.
  destruct (process_records _ _ _) as [s|e s]; cbn [session_of] in *.
  2: { rewrite Hp, Hr, length_app. cbn [length]. split_and!; [lia..|]. intros m _. lia. }
  destruct (page_limit_reached _ _) eqn:Hlim.
  { cbn [session_of page requests]. rewrite Hp, Hr, length_app. cbn [length].
    split_and!; [lia..|]. intros m _. lia. }
  destruct (negb _).
  { cbn [session_of page requests]. rewrite Hp, Hr, length_app. cbn [length].
    split_and!; [lia..|]. intros m _. lia. }
  match goal with
  | |- context [harvest_loop cfg ?s' server] =>
      destruct (IH s') as (Hone & Hpages & Hbound)
  end.
  cbn [page requests] in *. rewrite Hp, Hr, length_app in *. cbn [length] in *.
  split_and!; [lia..|]. intros m Hm. specialize (Hbound m Hm).
  unfold page_limit_reached in Hlim. rewrite Hm in Hlim. apply Z.leb_gt in Hlim. lia.
Qed.

(** X19. Every run sends at least one request; the number of requests is
    the number of pages parsed, or one more when the run was aborted; and
    with a page limit m a run never sends more than max(1, m) requests. *)
Theorem harvest_request_bound cfg (server : list Response) :
  let st' := session_of (harvest cfg server) in
  let sent := Z.of_nat (length (requests st')) in
  1 ≤ sent ∧
  page st' ≤ sent ≤ page st' + 1 ∧
  (∀ m, cfg_max_pages cfg = Some m → sent ≤ Z.max 1 m).
Proof.
  cbv zeta. unfold harvest.
  match goal with
  | |- context [harvest_loop cfg ?s server] =>
      destruct (harvest_loop_requests_count cfg server s) as (Hone & Hpages & Hbound)
  end.
  cbn [page requests length] in *.
  split_and!; [lia..|]. intros m Hm. specialize (Hbound m Hm). lia.
Qed.

Lemma process_records_live cfg st (records : list RecordNode) :
  process_records cfg st (live_records records) = process_records cfg st records.
Proof.
  revert st. unfold live_records.
  induction records as [|rec records IH]; intros st; [done|].
  destruct (is_deleted rec) eqn:Hdel.
  - rewrite filter_cons_False by congruence. cbn [process_records].
    unfold process_record. rewrite Hdel. apply IH.
  - rewrite filter_cons_True by done. cbn [process_records].
    destruct (process_record cfg st rec); [apply IH | done].
Qed.

(** X20. Records marked deleted leave no trace: taking them out of the
    pages changes nothing in the outcome of a run, neither the lines, nor
    the counters, nor the requests. *)
Theorem deleted_records_invisible cfg (server : list Response) :
  harvest cfg (drop_deleted <$> server) = harvest cfg server.
Proof.
  unfold harvest. generalize (mkSession 0 0 None 0 [fieldnames (cfg_max_contributors cfg)] []).
  induction server as [|resp server IH]; intros st; [done|].
  destruct resp as [| |doc]; [done..|].
  cbn [fmap list_fmap drop_deleted]. rewrite !harvest_loop_page. cbv zeta.
  cbn [doc_records]. rewrite process_records_live.
  assert ((parse_page (mkDocument (live_records (doc_records doc)) (doc_token_el doc))).2
          = (parse_page doc).2) as -> by done.
  destruct (process_records _ _ _) as [s|e s]; [|done].
  destruct (page_limit_reached _ _); [done|].
  destruct (negb _); [done|]. apply IH.
Qed.

End harvest_properties.

(** * Further properties of the page parser *)

Section page_parser_properties.

(** X6. [parse_page] hands over the record nodes as they are.  The cursor
    is read from the first resumptionToken element only: it is that
    element's text without the whitespace around it, and the empty string
    when there is no such element.  So the cursor is trimmed, and it is
    empty exactly when there is no such element or its text is missing or
    whitespace only. *)
Theorem parse_page_cursor (doc : Document) :
  (parse_page doc).1 = doc_records doc ∧
  match doc_token_el doc with
  | [] => (parse_page doc).2 = ""
  | t :: _ =>
      (parse_page doc).2 = Py.strip (text_or_empty t) ∧
      ∃ l r, text_or_empty t = l +:+ (parse_page doc).2 +:+ r ∧
             whitespace_only l = true ∧ whitespace_only r = true
  end ∧
  Py.strip (parse_page doc).2 = (parse_page doc).2 ∧
  ((parse_page doc).2 = "" ↔
   match doc_token_el doc with
   | [] => True
   | t :: _ => whitespace_only (text_or_empty t) = true
   end).
Proof.
  unfold parse_page. cbn [fst snd].
  destruct (doc_token_el doc) as [|t rest].
  - done.
  - split_and!; [done | done | apply strip_decompose | apply strip_idem
                 | apply strip_blank_iff].
Qed.

End page_parser_properties.
